(** * Local AI optimization framework: benchmarking and recommendation core

  A shallow embedding of the decision logic of the three benchmark tools
  of the repository:

  - the low-spec device benchmark ([LowSpec], the Go program that defines
    [runLowSpecTest], [assessOOMRisk], [generateLowSpecSummary], ...),
  - [tools/model_comparison.go] ([ModelComparison]),
  - [tools/uroboro_model_tester.go] ([UroboroTester]).

  Conventions of the embedding.

  - Go [string]s are byte strings: Rocq [string]s, one [ascii] per byte.
    The helpers of package [strings] are modelled on the ASCII range
    (white space is tab, LF, VT, FF, CR and space; case mapping touches
    the letters A-Z and a-z only).
  - [int], [int64] and [time.Duration] (nanoseconds) are [Z]; where the
    source subtracts two [int64] the wrap-around is written out.
  - [float64] is modelled by exact rationals [Q]: the source only adds,
    subtracts, multiplies, divides and compares, and rounding is not
    modelled.  The module [Binary64] has the same numeric functions on
    IEEE binary64 numbers; both versions are run side by side on the
    sample points used below.
  - Go maps are [gmap]s.  A [range] loop over a map whose iterations are
    independent is a map operation; where the result depends on the
    iteration order, the order is a parameter.
  - The outside world (the [ollama] process, [/proc/meminfo], the clock)
    is an explicit argument. *)

From Stdlib Require Import ZArith QArith Qminmax String Ascii List Lia Lqa Permutation Sorted.
From Stdlib Require Import Floats.
From stdpp Require Import gmap strings.

Local Open Scope Z_scope.

(** ** Package [strings] and [strconv] *)

Module GoStrings.

Definition len (s : string) : Z := Z.of_nat (String.length s).

(** [strings.HasPrefix(s, prefix)] *)
Fixpoint HasPrefix (s prefix : string) {struct prefix} : bool :=
  match prefix, s with
  | EmptyString, _ => true
  | String _ _, EmptyString => false
  | String p prefix', String c s' => Ascii.eqb c p && HasPrefix s' prefix'
  end.

(** [strings.Contains(s, substr)] *)
Fixpoint Contains (s substr : string) : bool :=
  HasPrefix s substr ||
  match s with
  | EmptyString => false
  | String _ s' => Contains s' substr
  end.

Definition isUpper (c : ascii) : bool :=
  let n := N_of_ascii c in (65 <=? n)%N && (n <=? 90)%N.
Definition isLower (c : ascii) : bool :=
  let n := N_of_ascii c in (97 <=? n)%N && (n <=? 122)%N.

Definition toLowerByte (c : ascii) : ascii :=
  if isUpper c then ascii_of_N (N_of_ascii c + 32) else c.
Definition toUpperByte (c : ascii) : ascii :=
  if isLower c then ascii_of_N (N_of_ascii c - 32) else c.

Fixpoint mapBytes (f : ascii -> ascii) (s : string) : string :=
  match s with
  | EmptyString => EmptyString
  | String c s' => String (f c) (mapBytes f s')
  end.

(** [strings.ToLower] and [strings.ToUpper] *)
Definition ToLower : string -> string := mapBytes toLowerByte.
Definition ToUpper : string -> string := mapBytes toUpperByte.

(** The white space of [strings.Fields] and [strings.TrimSpace]. *)
Definition isSpace (c : ascii) : bool :=
  let n := N_of_ascii c in ((9 <=? n)%N && (n <=? 13)%N) || (n =? 32)%N.

Fixpoint trimLeft (s : string) : string :=
  match s with
  | EmptyString => EmptyString
  | String c s' => if isSpace c then trimLeft s' else s
  end.

Fixpoint allSpace (s : string) : bool :=
  match s with
  | EmptyString => true
  | String c s' => isSpace c && allSpace s'
  end.

Fixpoint trimRight (s : string) : string :=
  match s with
  | EmptyString => EmptyString
  | String c s' => if allSpace s then EmptyString else String c (trimRight s')
  end.

(** [strings.TrimSpace] *)
Definition TrimSpace (s : string) : string := trimRight (trimLeft s).

(** [strings.Split(s, "\n")]: the pieces between line feeds; [cur] holds
    the bytes of the piece being read, last byte first. *)
Fixpoint splitLines (cur : string) (s : string) : list string :=
  match s with
  | EmptyString => [String.rev cur]
  | String c s' =>
      if Ascii.eqb c "010"%char
      then String.rev cur :: splitLines EmptyString s'
      else splitLines (String c cur) s'
  end.
Definition SplitLines (s : string) : list string := splitLines EmptyString s.

(** [strings.Fields]: the maximal runs of bytes that are not white space. *)
Fixpoint fields (cur : string) (s : string) : list string :=
  match s with
  | EmptyString =>
      match cur with EmptyString => [] | _ => [String.rev cur] end
  | String c s' =>
      if isSpace c
      then match cur with
           | EmptyString => fields EmptyString s'
           | _ => String.rev cur :: fields EmptyString s'
           end
      else fields (String c cur) s'
  end.
Definition Fields (s : string) : list string := fields EmptyString s.

Definition digit (c : ascii) : option Z :=
  let n := N_of_ascii c in
  if (48 <=? n)%N && (n <=? 57)%N then Some (Z.of_N n - 48) else None.

Fixpoint digits (acc : Z) (s : string) : option Z :=
  match s with
  | EmptyString => Some acc
  | String c s' =>
      match digit c with
      | Some d => digits (10 * acc + d) s'
      | None => None
      end
  end.

Definition minInt64 : Z := - 2 ^ 63.
Definition maxInt64 : Z := 2 ^ 63 - 1.

(** [strconv.ParseInt(s, 10, 64)]: [None] stands for a non-nil error
    (syntax or range). *)
Definition ParseInt (s : string) : option Z :=
  let '(neg, body) :=
    match s with
    | String "+"%char r => (false, r)
    | String "-"%char r => (true, r)
    | _ => (false, s)
    end in
  match body with
  | EmptyString => None
  | _ =>
      match digits 0 body with
      | Some n =>
          let v := if neg then - n else n in
          if (minInt64 <=? v) && (v <=? maxInt64) then Some v else None
      | None => None
      end
  end.

(** [strings.HasSuffix(s, suffix)] *)
Definition HasSuffix (s suffix : string) : bool :=
  let n := String.length s in
  let m := String.length suffix in
  (m <=? n)%nat && String.eqb (String.substring (n - m) m s) suffix.

(** [inSet cutset c]: the byte [c] occurs in [cutset]. *)
Fixpoint inSet (cutset : string) (c : ascii) : bool :=
  match cutset with
  | EmptyString => false
  | String d cutset' => Ascii.eqb c d || inSet cutset' c
  end.

Fixpoint trimLeftSet (cutset s : string) : string :=
  match s with
  | EmptyString => EmptyString
  | String c s' => if inSet cutset c then trimLeftSet cutset s' else s
  end.

Fixpoint allInSet (cutset s : string) : bool :=
  match s with
  | EmptyString => true
  | String c s' => inSet cutset c && allInSet cutset s'
  end.

Fixpoint trimRightSet (cutset s : string) : string :=
  match s with
  | EmptyString => EmptyString
  | String c s' =>
      if allInSet cutset s then EmptyString else String c (trimRightSet cutset s')
  end.

(** [strings.Trim(s, cutset)] for a cutset of ASCII bytes. *)
Definition Trim (s cutset : string) : string :=
  trimRightSet cutset (trimLeftSet cutset s).


(** Some byte of [s] is white space. *)
Fixpoint hasSpace (s : string) : bool :=
  match s with
  | EmptyString => false
  | String c s' => isSpace c || hasSpace s'
  end.


End GoStrings.

Import GoStrings.

(** Signed 64-bit wrap-around of Go's [int64] arithmetic. *)
Definition wrap64 (z : Z) : Z := (z + 2 ^ 63) mod 2 ^ 64 - 2 ^ 63.

(** [time.Second] in nanoseconds. *)
Definition Second : Z := 1000000000.

(** [time.Duration.Seconds] *)
Definition Seconds (d : Z) : Q := inject_Z d / inject_Z Second.

(** [<] on [float64] *)
Definition Qltb (a b : Q) : bool :=
  match (a ?= b)%Q with Lt => true | _ => false end.

(** The selection loops of the three tools share one shape: a running
    pair (best name, best score) that only a strictly greater score
    replaces. *)
Definition keepBest {A : Type} (name : A -> string) (score : A -> Q)
    (best : string * Q) (x : A) : string * Q :=
  if Qltb (snd best) (score x) then (name x, score x) else best.

(** A [range] loop over a Go map visits every entry once, in an order
    the language leaves open; [iter] is such an order. *)
Definition visitsAll {V : Type} (iter : gmap string V -> list (string * V)) : Prop :=
  forall m, Permutation (iter m) (map_to_list m).

(** The loops that look for the fastest entry share one shape too: a
    running pair (name, time) that only a qualifying entry with a
    strictly smaller time replaces. *)
Definition keepFastest {A : Type} (name : A -> string) (qualifies : A -> bool)
    (time : A -> Z) (best : string * Z) (x : A) : string * Z :=
  if qualifies x && (time x <? snd best) then (name x, time x) else best.

(** ** The low-spec device benchmark *)

Module LowSpec.

Record HardwareProfile := {
  DeviceName : string;
  OS : string;
  Architecture : string;
  CPUCores : Z;
  TotalRAM : Z;
  AvailableRAM : Z;
  StorageType : string;
  ThermalProfile : string;
  PowerProfile : string;
  Notes : string
}.

Record BenchmarkResult := {
  Model : string;
  ModelSize : string;
  Quantization : string;
  TestCase : string;
  Prompt : string;
  Output : string;
  Success : bool;
  Error : string;
  ResponseTime : Z;
  TimeToFirstToken : Z;
  TokensPerSecond : Q;
  PeakMemoryMB : Z;
  AvgCPUPercent : Q;
  MemoryEfficiency : Q;
  ThermalThrottling : bool;
  SwapUsed : bool;
  OOMRisk : string;
  BatteryImpact : string;
  OutputLength : Z;
  QualityScore : Q;
  UsabilityScore : Q;
  Timestamp : Z
}.

Record RecommendedConfig := {
  PrimaryModel : string;
  FallbackModel : string;
  ContextLength : Z;
  ConcurrentRequests : Z;
  MemoryBuffer : Z;
  SwapRecommendation : string;
  EnvironmentVars : gmap string string
}.

(** The narrative fields of the summary (memory recommendations,
    performance insights, cost-efficiency score) are formatted text and
    an average; they do not take part in the ranking and are left out. *)
Record BenchmarkSummary := {
  OptimalModels : gmap string string;
  SummaryConfig : RecommendedConfig
}.

Record TestScenario := {
  Name : string;
  Description : string;
  UseCase : string;
  ScenarioPrompt : string;
  MaxTokens : Z;
  Priority : string
}.

Definition inferThermalProfile (profile : HardwareProfile) : string :=
  if (CPUCores profile <=? 2) && (TotalRAM profile <=? 4096) then "mobile"
  else if (CPUCores profile <=? 4) && (TotalRAM profile <=? 8192) then "laptop"
  else if (CPUCores profile <=? 8) && (TotalRAM profile <=? 16384) then "desktop"
  else "server".

Definition inferPowerProfile (profile : HardwareProfile) : string :=
  if String.eqb (ThermalProfile profile) "mobile" || String.eqb (ThermalProfile profile) "laptop"
  then "battery" else "plugged".

Definition withThermalProfile (profile : HardwareProfile) (thermal : string) : HardwareProfile :=
  {| DeviceName := DeviceName profile; OS := OS profile;
     Architecture := Architecture profile; CPUCores := CPUCores profile;
     TotalRAM := TotalRAM profile; AvailableRAM := AvailableRAM profile;
     StorageType := StorageType profile; ThermalProfile := thermal;
     PowerProfile := PowerProfile profile; Notes := Notes profile |}.

Definition withPowerProfile (profile : HardwareProfile) (power : string) : HardwareProfile :=
  {| DeviceName := DeviceName profile; OS := OS profile;
     Architecture := Architecture profile; CPUCores := CPUCores profile;
     TotalRAM := TotalRAM profile; AvailableRAM := AvailableRAM profile;
     StorageType := StorageType profile; ThermalProfile := ThermalProfile profile;
     PowerProfile := power; Notes := Notes profile |}.

(** [profileHardware], given what the host reports: its name ([None] when
    [os.Hostname] fails), [runtime.GOOS], [runtime.GOARCH],
    [runtime.NumCPU], and the outcome of the memory and storage probes of
    that operating system (total and available RAM in MB, storage type). *)
Definition profileHardware (hostname : option string) (goos goarch : string)
    (numCPU : Z) (memory : Z * Z) (storage : string) : HardwareProfile :=
  let profile :=
    {| DeviceName := default "unknown" hostname; OS := goos; Architecture := goarch;
       CPUCores := numCPU; TotalRAM := fst memory; AvailableRAM := snd memory;
       StorageType := storage; ThermalProfile := ""; PowerProfile := ""; Notes := "" |} in
  let profile := withThermalProfile profile (inferThermalProfile profile) in
  withPowerProfile profile (inferPowerProfile profile).

(** *** Model discovery

    [listing] is what [ollama list] wrote to standard output, [None]
    when the command failed. *)
Definition considerLine (models : list string) (line : string) : list string :=
  if String.eqb (TrimSpace line) "" then models
  else match Fields line with
       | modelName :: _ =>
           if negb (Contains modelName "embedding")
           then models ++ [modelName]
           else models
       | [] => models
       end.

Definition getAvailableModels (listing : option string) : list string :=
  match listing with
  | None => []
  | Some output => fold_left considerLine (tail (SplitLines output)) []
  end.

Definition getLowSpecTestScenarios : list TestScenario :=
  [ {| Name := "Ultra-Fast Capture";
       Description := "Minimal latency for real-time development capture";
       UseCase := "capture"; Priority := "speed"; MaxTokens := 100;
       ScenarioPrompt := "Summarize in one sentence: Fixed authentication bug in user service" |};
    {| Name := "Memory-Efficient Summary";
       Description := "Quality summary with minimal memory footprint";
       UseCase := "summary"; Priority := "memory"; MaxTokens := 200;
       ScenarioPrompt := "Create a concise technical summary: Implemented Redis caching layer, reduced database queries by 60%, improved API response time from 800ms to 200ms" |};
    {| Name := "Battery-Friendly Social";
       Description := "Social media content optimized for battery life";
       UseCase := "social"; Priority := "speed"; MaxTokens := 150;
       ScenarioPrompt := "Create engaging social media post: Successfully deployed microservices architecture, achieved 99.9% uptime" |};
    {| Name := "Quality-Focused Devlog";
       Description := "Technical content that balances quality and resources";
       UseCase := "devlog"; Priority := "quality"; MaxTokens := 400;
       ScenarioPrompt := "Write technical development log: Migrated from monolith to microservices. Challenges: data consistency, service discovery, monitoring. Solutions: event sourcing, Consul, Prometheus" |};
    {| Name := "Resource-Constrained Blog";
       Description := "Blog post generation for very low-spec devices";
       UseCase := "blog"; Priority := "memory"; MaxTokens := 600;
       ScenarioPrompt := "Write engaging blog post about: Building resilient distributed systems. Cover: fault tolerance, circuit breakers, graceful degradation. Target: developers learning microservices" |} ].

(** *** Memory telemetry

    [meminfo] is the content of [/proc/meminfo] at the time of the call,
    [None] when it cannot be read.  The value reported is the
    [MemAvailable] counter, converted from kB to MB. *)
Fixpoint scanMemAvailable (lines : list string) : option Z :=
  match lines with
  | [] => None
  | line :: rest =>
      if HasPrefix line "MemAvailable:" then
        match Fields line with
        | _ :: v :: _ =>
            match ParseInt v with
            | Some val => Some (Z.quot val 1024)
            | None => scanMemAvailable rest
            end
        | _ => scanMemAvailable rest
        end
      else scanMemAvailable rest
  end.

Definition getCurrentMemoryUsage (goos : string) (meminfo : option string) : Z :=
  if String.eqb goos "linux" then
    match meminfo with
    | None => 0
    | Some data =>
        match scanMemAvailable (SplitLines data) with
        | Some mb => mb
        | None => 0
        end
    end
  else 0.

Definition inferModelSize (model : string) : string :=
  let model := ToLower model in
  if Contains model "3b" then "3b"
  else if Contains model "7b" then "7b"
  else if Contains model "13b" then "13b"
  else if Contains model "30b" || Contains model "33b" then "30b+"
  else "unknown".

Definition inferQuantization (model : string) : string :=
  let model := ToLower model in
  if Contains model "q4" || Contains model "int4" then "int4"
  else if Contains model "q8" || Contains model "int8" then "int8"
  else if Contains model "fp16" then "fp16"
  else "fp16".

(** *** Risk flags *)

Definition assessOOMRisk (memoryUsed availableMemory : Z) : string :=
  if (memoryUsed <=? 0) || (availableMemory <=? 0) then "unknown"
  else
    let usage := (inject_Z memoryUsed / inject_Z availableMemory)%Q in
    if Qltb usage 0.5 then "low"
    else if Qltb usage 0.8 then "medium"
    else "high".

Definition assessBatteryImpact (responseTime memoryUsed : Z) (powerProfile : string) : string :=
  if negb (String.eqb powerProfile "battery") then "n/a"
  else
    let impact := (Seconds responseTime + inject_Z memoryUsed / 1000)%Q in
    if Qltb impact 5 then "minimal"
    else if Qltb impact 15 then "moderate"
    else "high".

Definition assessThermalThrottling (responseTime : Z) (thermalProfile : string) : bool :=
  let expectedTime :=
    if String.eqb thermalProfile "mobile" then 10 * Second
    else if String.eqb thermalProfile "laptop" then 8 * Second
    else if String.eqb thermalProfile "desktop" then 5 * Second
    else 3 * Second in
  expectedTime * 2 <? responseTime.

(** *** Quality and usability *)

Definition expectedLength (useCase : string) : Z :=
  if String.eqb useCase "capture" then 100
  else if String.eqb useCase "summary" then 200
  else if String.eqb useCase "social" then 150
  else if String.eqb useCase "devlog" then 400
  else if String.eqb useCase "blog" then 600
  else 200.

Definition assessOutputQuality (output useCase : string) : Q :=
  let length := len output in
  let ratio := (inject_Z length / inject_Z (expectedLength useCase))%Q in
  if Qltb ratio 0.3 then 1.0
  else if Qltb ratio 0.7 then 2.5
  else if Qle_bool ratio 1.5 then 4.0
  else if Qle_bool ratio 2.0 then 3.0
  else 2.0.

Definition timeScore (responseTime : Z) : Q :=
  let t := (5.0 - Seconds responseTime / 10.0)%Q in
  if Qltb t 1.0 then 1.0 else t.

Definition calculateUsabilityScore (responseTime : Z) (qualityScore : Q) (priority : string) : Q :=
  let timeScore := timeScore responseTime in
  if String.eqb priority "speed" then (0.7 * timeScore + 0.3 * qualityScore)%Q
  else if String.eqb priority "quality" then (0.3 * timeScore + 0.7 * qualityScore)%Q
  else if String.eqb priority "memory" then (0.5 * timeScore + 0.5 * qualityScore)%Q
  else (0.5 * timeScore + 0.5 * qualityScore)%Q.

(** *** One benchmark invocation

    What the executor observes around one [ollama run]: the clock, the
    two readings of [/proc/meminfo] (before the process starts and after
    it exits), the wall-clock time between start and exit, and how the
    process ended. *)
Inductive CmdOutcome :=
| Failed (err : string)
| Exited (stdout : string).

Record ProcRun := {
  startedAt : Z;
  meminfoBefore : option string;
  meminfoAfter : option string;
  elapsed : Z;
  outcome : CmdOutcome
}.

Definition runLowSpecTest (goos : string) (model : string) (scenario : TestScenario)
    (profile : HardwareProfile) (run : ProcRun) : BenchmarkResult :=
  let initialMemory := getCurrentMemoryUsage goos (meminfoBefore run) in
  let responseTime := elapsed run in
  let finalMemory := getCurrentMemoryUsage goos (meminfoAfter run) in
  let peak := wrap64 (finalMemory - initialMemory) in
  match outcome run with
  | Failed err =>
      {| Model := model;
         ModelSize := inferModelSize model;
         Quantization := inferQuantization model;
         TestCase := Name scenario;
         Prompt := ScenarioPrompt scenario;
         Output := "";
         Success := false;
         Error := err;
         ResponseTime := responseTime;
         TimeToFirstToken := 0;
         TokensPerSecond := 0;
         PeakMemoryMB := peak;
         AvgCPUPercent := 0;
         MemoryEfficiency := 0;
         ThermalThrottling := false;
         SwapUsed := false;
         OOMRisk := assessOOMRisk peak (AvailableRAM profile);
         BatteryImpact := "";
         OutputLength := 0;
         QualityScore := 0;
         UsabilityScore := 0;
         Timestamp := startedAt run |}
  | Exited stdout =>
      let output := TrimSpace stdout in
      let outputLength := len output in
      let quality := assessOutputQuality output (UseCase scenario) in
      {| Model := model;
         ModelSize := inferModelSize model;
         Quantization := inferQuantization model;
         TestCase := Name scenario;
         Prompt := ScenarioPrompt scenario;
         Output := output;
         Success := true;
         Error := "";
         ResponseTime := responseTime;
         TimeToFirstToken := 0;
         TokensPerSecond :=
           if (0 <? outputLength) && (0 <? responseTime)
           then (inject_Z outputLength / 4.0 / Seconds responseTime)%Q
           else 0;
         PeakMemoryMB := peak;
         AvgCPUPercent := 0;
         MemoryEfficiency :=
           if 0 <? peak then (inject_Z outputLength / inject_Z peak)%Q else 0;
         ThermalThrottling := assessThermalThrottling responseTime (ThermalProfile profile);
         SwapUsed := AvailableRAM profile <? peak;
         OOMRisk := assessOOMRisk peak (AvailableRAM profile);
         BatteryImpact := assessBatteryImpact responseTime peak (PowerProfile profile);
         OutputLength := outputLength;
         QualityScore := quality;
         UsabilityScore := calculateUsabilityScore responseTime quality (Priority scenario);
         Timestamp := startedAt run |}
  end.

(** [runLowSpecBenchmarks]: every model against every scenario, in order.
    [world model scenario] is what is observed around that invocation. *)
Definition runLowSpecBenchmarks (goos : string) (world : string -> TestScenario -> ProcRun)
    (models : list string) (scenarios : list TestScenario)
    (profile : HardwareProfile) : list BenchmarkResult :=
  flat_map (fun model =>
    List.map (fun scenario => runLowSpecTest goos model scenario profile (world model scenario))
             scenarios) models.

(** *** Ranking *)

(** The score a result competes with inside [findOptimalModelForUseCase]. *)
Definition penalizedScore (profile : HardwareProfile) (result : BenchmarkResult) : Q :=
  let score := UsabilityScore result in
  let score :=
    if (AvailableRAM profile <? 8192) && String.eqb (OOMRisk result) "high"
    then (score - 2.0)%Q else score in
  let score :=
    if String.eqb (BatteryImpact result) "high" then (score - 1.0)%Q else score in
  if negb (ThermalThrottling result) then (score + 0.5)%Q else score.

(** One iteration of the selection loop on [(bestModel, bestScore)]. *)
Definition considerResult (profile : HardwareProfile) (best : string * Q)
    (result : BenchmarkResult) : string * Q :=
  let score := penalizedScore profile result in
  if Qltb (snd best) score then (Model result, score) else best.

Definition findOptimalModelForUseCase (results : list BenchmarkResult)
    (profile : HardwareProfile) : string :=
  match results with
  | [] => ""
  | _ => fst (fold_left (considerResult profile) results ("", 0%Q))
  end.

(** The key under which a result is grouped. *)
Definition groupKey (result : BenchmarkResult) : string := ToLower (TestCase result).

Definition groupResult (useCaseResults : gmap string (list BenchmarkResult))
    (result : BenchmarkResult) : gmap string (list BenchmarkResult) :=
  if Success result then
    let useCase := groupKey result in
    <[useCase := default [] (useCaseResults !! useCase) ++ [result]]> useCaseResults
  else useCaseResults.

Definition pickOptimal (profile : HardwareProfile) (caseResults : list BenchmarkResult)
    : option string :=
  let bestModel := findOptimalModelForUseCase caseResults profile in
  if String.eqb bestModel "" then None else Some bestModel.

(** One iteration of the loop that looks for the primary model, on
    [(bestModel, bestScore)]. *)
Definition considerPrimary (best : string * Q) (result : BenchmarkResult) : string * Q :=
  if Success result && Qltb (snd best) (UsabilityScore result)
  then (Model result, UsabilityScore result) else best.

Definition generateRecommendedConfig (results : list BenchmarkResult)
    (profile : HardwareProfile) : RecommendedConfig :=
  let bestModel := fst (fold_left considerPrimary results ("", 0%Q)) in
  let lowRAM := AvailableRAM profile <? 8192 in
  let env : gmap string string :=
    <["OLLAMA_NUM_PARALLEL" := "1"]> (<["OLLAMA_MAX_LOADED_MODELS" := "1"]> ∅) in
  let env :=
    if String.eqb (ThermalProfile profile) "mobile" || String.eqb (ThermalProfile profile) "laptop"
    then <["OLLAMA_FLASH_ATTENTION" := "1"]> env else env in
  {| PrimaryModel := bestModel;
     FallbackModel := "";
     ContextLength := if lowRAM then 2048 else 4096;
     ConcurrentRequests := if lowRAM then 1 else 2;
     MemoryBuffer := if lowRAM then 1024 else 2048;
     SwapRecommendation := if lowRAM then "Enable 4GB swap file" else "Optional";
     EnvironmentVars := env |}.

Definition generateLowSpecSummary (results : list BenchmarkResult)
    (profile : HardwareProfile) : BenchmarkSummary :=
  let useCaseResults := fold_left groupResult results ∅ in
  {| OptimalModels := omap (pickOptimal profile) useCaseResults;
     SummaryConfig := generateRecommendedConfig results profile |}.

(** *** Host probes and remaining summary parts *)

(** One line of [/proc/meminfo] seen by [getLinuxMemoryInfo], on the pair
    (total, available) in MB. *)
Definition readMeminfoLine (mem : Z * Z) (line : string) : Z * Z :=
  if HasPrefix line "MemTotal:" then
    match Fields line with
    | _ :: v :: _ =>
        match ParseInt v with
        | Some val => (Z.quot val 1024, snd mem)
        | None => mem
        end
    | _ => mem
    end
  else if HasPrefix line "MemAvailable:" then
    match Fields line with
    | _ :: v :: _ =>
        match ParseInt v with
        | Some val => (fst mem, Z.quot val 1024)
        | None => mem
        end
    | _ => mem
    end
  else mem.

Definition getLinuxMemoryInfo (meminfo : option string) : Z * Z :=
  match meminfo with
  | None => (0, 0)
  | Some data => fold_left readMeminfoLine (SplitLines data) (0, 0)
  end.

(** [getLinuxStorageType]; [lsblk] is the output of [lsblk -d -o name,rota],
    [None] when the command fails. *)
Definition getLinuxStorageType (lsblk : option string) : string :=
  match lsblk with
  | None => "unknown"
  | Some output =>
      if existsb (fun line => Contains line "0") (tail (SplitLines output))
      then "SSD" else "HDD"
  end.

(** [profileHardware] on Linux, from the files and commands it reads. *)
Definition profileLinux (hostname : option string) (goarch : string) (numCPU : Z)
    (meminfo lsblk : option string) : HardwareProfile :=
  profileHardware hostname "linux" goarch numCPU
    (getLinuxMemoryInfo meminfo) (getLinuxStorageType lsblk).

(** One iteration of [calculateCostEfficiencyScore] on
    [(totalScore, count)]. *)
Definition addEfficiency (acc : Q * Z) (result : BenchmarkResult) : Q * Z :=
  if Success result && (0 <? PeakMemoryMB result) then
    let efficiency :=
      (QualityScore result * TokensPerSecond result / inject_Z (PeakMemoryMB result))%Q in
    ((fst acc + efficiency)%Q, snd acc + 1)
  else acc.

Definition calculateCostEfficiencyScore (results : list BenchmarkResult) : Q :=
  let '(totalScore, count) := fold_left addEfficiency results (0%Q, 0) in
  if count =? 0 then 0.0%Q else (totalScore / inject_Z count)%Q.

Definition generateMemoryRecommendations (profile : HardwareProfile) : list string :=
  if AvailableRAM profile <? 4096 then
    ["Consider using 3B models only for this device";
     "Enable swap file (4GB minimum) for stability";
     "Close other applications during AI processing"]
  else if AvailableRAM profile <? 8192 then
    ["7B models should work well with careful memory management";
     "Monitor memory usage and consider swap for larger models"]
  else
    ["Your device can handle most models efficiently";
     "Consider running multiple models for different use cases"].


(** [main] up to the summary: [None] is the fatal exit taken when no model
    is available. *)
Definition benchmarkDevice (goos : string) (listing : option string)
    (world : string -> TestScenario -> ProcRun) (profile : HardwareProfile)
    : option (list BenchmarkResult * BenchmarkSummary) :=
  let models := getAvailableModels listing in
  match models with
  | [] => None
  | _ =>
      let scenarios := getLowSpecTestScenarios in
      let results := runLowSpecBenchmarks goos world models scenarios profile in
      Some (results, generateLowSpecSummary results profile)
  end.

End LowSpec.

(** ** [tools/model_comparison.go] *)

Module ModelComparison.

Record ModelResult := {
  Model : string;
  Prompt : string;
  Output : string;
  ResponseTime : Z;
  Success : bool;
  Error : string;
  OutputLength : Z;
  Timestamp : Z
}.

Record ModelStats := {
  SuccessRate : Q;
  AvgResponseTime : Z;
  AvgOutputLength : Q;
  TotalTests : Z
}.

Record ResultSummary := {
  ModelStatsByModel : gmap string ModelStats;
  BestModel : gmap string string
}.

Definition inferUseCase (prompt : string) : string :=
  let prompt := ToLower prompt in
  if Contains prompt "blog post" || Contains prompt "engaging blog" then "blog"
  else if Contains prompt "social media" || Contains prompt "engaging social" then "social"
  else if Contains prompt "devlog" || Contains prompt "development log" then "devlog"
  else if Contains prompt "summary" || Contains prompt "concise" then "capture"
  else "general".

(** The anonymous struct kept per model by [findBestModel]. *)
Record Perf := {
  successRate : Q;
  avgResponseTime : Z;
  count : Z
}.

Definition zeroPerf : Perf := {| successRate := 0; avgResponseTime := 0; count := 0 |}.

(** Conversion of a [float64] to an integer type: truncation towards zero. *)
Definition truncQ (q : Q) : Z := Z.quot (Qnum q) (Zpos (Qden q)).

(** First loop: one more result of [result.Model]. *)
Definition accumulate (modelPerf : gmap string Perf) (result : ModelResult) : gmap string Perf :=
  let perf := default zeroPerf (modelPerf !! Model result) in
  let perf :=
    if Success result
    then {| successRate := (successRate perf + 1.0)%Q;
            avgResponseTime := wrap64 (avgResponseTime perf + ResponseTime result);
            count := count perf + 1 |}
    else {| successRate := successRate perf;
            avgResponseTime := avgResponseTime perf;
            count := count perf + 1 |} in
  <[Model result := perf]> modelPerf.

(** Second loop: sums become averages.  Inside the branch the divisor is
    the number of successful runs, at least one. *)
Definition finalize (perf : Perf) : Perf :=
  let rate := (successRate perf / inject_Z (count perf))%Q in
  {| successRate := rate;
     avgResponseTime :=
       if Qltb 0 rate
       then Z.quot (avgResponseTime perf) (truncQ (rate * inject_Z (count perf))%Q)
       else avgResponseTime perf;
     count := count perf |}.

Definition perfScore (perf : Perf) : Q :=
  (successRate perf - Seconds (avgResponseTime perf) / 100.0)%Q.

(** Third loop, on [(bestModel, bestScore)]. *)
Definition considerModel (best : string * Q) (entry : string * Perf) : string * Q :=
  let score := perfScore (snd entry) in
  if Qltb (snd best) score then (fst entry, score) else best.

(** [findBestModel], given the order [iter] in which the last loop visits
    the entries of the map. *)
Definition findBestModelWith (iter : gmap string Perf -> list (string * Perf))
    (results : list ModelResult) : string :=
  match results with
  | [] => ""
  | _ =>
      let modelPerf := finalize <$> fold_left accumulate results ∅ in
      fst (fold_left considerModel (iter modelPerf) ("", (-1.0)%Q))
  end.

(** Go visits every entry of a map once, in an order it does not specify. *)
Definition visitsEachOnce (iter : gmap string Perf -> list (string * Perf)) : Prop :=
  forall m, Permutation (iter m) (map_to_list m).

Definition findBestModel : list ModelResult -> string := findBestModelWith map_to_list.

Definition calculateModelStats (results : list ModelResult) : ModelStats :=
  match results with
  | [] => {| SuccessRate := 0; AvgResponseTime := 0; AvgOutputLength := 0; TotalTests := 0 |}
  | _ =>
      let ok := filter (fun r => Success r = true) results in
      let successCount := Z.of_nat (length ok) in
      let totalResponseTime := fold_left (fun t r => wrap64 (t + ResponseTime r)) ok 0 in
      let totalOutputLength := fold_left (fun t r => wrap64 (t + OutputLength r)) ok 0 in
      let n := Z.of_nat (length results) in
      {| SuccessRate := (inject_Z successCount / inject_Z n)%Q;
         AvgResponseTime :=
           if 0 <? successCount then Z.quot totalResponseTime successCount else 0;
         AvgOutputLength :=
           if 0 <? successCount
           then (inject_Z totalOutputLength / inject_Z successCount)%Q else 0;
         TotalTests := n |}
  end.

Definition groupBy (key : ModelResult -> string) (groups : gmap string (list ModelResult))
    (result : ModelResult) : gmap string (list ModelResult) :=
  <[key result := default [] (groups !! key result) ++ [result]]> groups.

Definition pickBest (iter : gmap string Perf -> list (string * Perf))
    (caseResults : list ModelResult) : option string :=
  let bestModel := findBestModelWith iter caseResults in
  if String.eqb bestModel "" then None else Some bestModel.

Definition generateSummaryWith (iter : gmap string Perf -> list (string * Perf))
    (results : list ModelResult) : ResultSummary :=
  let modelData := fold_left (groupBy Model) results ∅ in
  let useCaseResults := fold_left (groupBy (fun r => inferUseCase (Prompt r))) results ∅ in
  {| ModelStatsByModel := calculateModelStats <$> modelData;
     BestModel := omap (pickBest iter) useCaseResults |}.

Definition generateSummary : list ModelResult -> ResultSummary :=
  generateSummaryWith map_to_list.

(** *** Running the experiments *)

Record TestCase := {
  Name : string;
  Description : string;
  TestPrompt : string;
  UseCase : string
}.

Record ExperimentConfig := {
  Models : list string;
  TestCases : list TestCase;
  TimeoutSec : Z;
  Runs : Z
}.

(** What is observed around one [ollama run]: the start time, the time
    until the process ended and how it ended. *)
Record Invocation := {
  startedAt : Z;
  elapsed : Z;
  outcome : LowSpec.CmdOutcome
}.

Definition testModel (model : string) (testCase : TestCase) (call : Invocation) : ModelResult :=
  match outcome call with
  | LowSpec.Failed err =>
      {| Model := model; Prompt := TestPrompt testCase; Output := "";
         ResponseTime := elapsed call; Success := false; Error := err;
         OutputLength := 0; Timestamp := startedAt call |}
  | LowSpec.Exited stdout =>
      {| Model := model; Prompt := TestPrompt testCase; Output := TrimSpace stdout;
         ResponseTime := elapsed call; Success := true; Error := "";
         OutputLength := len (TrimSpace stdout); Timestamp := startedAt call |}
  end.

(** [runExperiments]; [world model testCase run] is what is observed
    around run number [run] of the model on the test case. *)
Definition runExperiments (world : string -> TestCase -> nat -> Invocation)
    (config : ExperimentConfig) (models : list string) : list ModelResult :=
  flat_map (fun model =>
    flat_map (fun testCase =>
      List.map (fun run => testModel model testCase (world model testCase run))
               (seq 0 (Z.to_nat (Runs config))))
      (TestCases config)) models.

(** [isModelAvailable]; [listing] is the output of the [ollama list] run
    for this model, [None] when it fails. *)
Definition isModelAvailable (listing : option string) (model : string) : bool :=
  match listing with
  | None => false
  | Some output => Contains output model
  end.

(** [checkModelAvailability]; every candidate triggers its own
    [ollama list], whose outcome is [listingFor model]. *)
Definition checkModelAvailability (listingFor : string -> option string)
    (models : list string) : list string :=
  fold_left (fun available model =>
               if isModelAvailable (listingFor model) model
               then available ++ [model] else available)
            models [].



(** [time.Hour] in nanoseconds. *)
Definition Hour : Z := 3600 * Second.

(** One iteration of [findFastestModel] on (fastest, fastestTime). *)
Definition considerSpeed (best : string * Z) (entry : string * ModelStats) : string * Z :=
  if Qltb 0.5 (SuccessRate (snd entry)) && (AvgResponseTime (snd entry) <? snd best)
  then (fst entry, AvgResponseTime (snd entry))
  else best.

Definition findFastestModelWith (iter : gmap string ModelStats -> list (string * ModelStats))
    (stats : gmap string ModelStats) : string :=
  fst (fold_left considerSpeed (iter stats) ("", Hour)).

End ModelComparison.

(** ** [tools/uroboro_model_tester.go] *)

Module UroboroTester.

Record UroboroTestResult := {
  Model : string;
  UseCase : string;
  TestName : string;
  Input : string;
  Output : string;
  ResponseTime : Z;
  Success : bool;
  Error : string;
  QualityScore : Z;
  FormatCompliance : bool;
  TechnicalAccuracy : bool;
  Timestamp : Z
}.

Record UroboroTestCase := {
  Name : string;
  TestCaseUseCase : string;
  TestCaseInput : string;
  Prompt : string;
  ExpectedLen : Z
}.

Record UroboroConfigRecommendation := {
  PrimaryModel : string;
  FallbackChain : list string;
  UseCaseModels : gmap string string;
  TimeoutConfig : gmap string Z;
  EnvironmentVars : gmap string string
}.

Definition technicalTerms : list string :=
  ["API"; "database"; "server"; "client"; "service"; "system"; "performance"; "optimization"].

(** The loop over [technicalTerms] in [evaluateQuality] stops at the first
    term found in the output; this is what it finds. *)
Definition foundTechnicalTerm (output : string) : bool :=
  existsb (fun term => Contains (ToLower output) (ToLower term)) technicalTerms.

Definition evaluateQuality (result : UroboroTestResult) (testCase : UroboroTestCase) : Z :=
  if negb (Success result) then 0
  else
    let score := 3 in
    let output := Output result in
    let length := len output in
    let useCase := TestCaseUseCase testCase in
    let score :=
      if String.eqb useCase "capture" && (50 <? length) && (length <? 300) then score + 1
      else if String.eqb useCase "social" && (100 <? length) && (length <? 500) then score + 1
      else if (String.eqb useCase "devlog" || String.eqb useCase "blog") && (300 <? length)
           then score + 1
      else score in
    let score :=
      if Contains output "##" || Contains output "- " then score + 1 else score in
    let _found := foundTechnicalTerm output in
    if 5 <? score then 5 else score.

Definition checkFormatCompliance (output useCase : string) : bool :=
  if String.eqb useCase "devlog" || String.eqb useCase "blog"
  then Contains output "##" || Contains output "# "
  else if String.eqb useCase "social"
  then negb (Contains output "##") && (len output <? 500)
  else if String.eqb useCase "capture"
  then (20 <? len output) && (len output <? 300)
  else true.

Definition timeoutFor (useCase model : string) : option Z :=
  if String.eqb useCase "capture" then Some 15
  else if String.eqb useCase "social" then Some 30
  else if String.eqb useCase "devlog" then Some 45
  else if String.eqb useCase "blog" then Some 60
  else None.

(** [generateConfigRecommendation] reads one field of the summary, the
    best model per use case.  Keys of [EnvironmentVars] that coincide
    after [ToUpper] are written in map order. *)
Definition generateConfigRecommendation (bestModelPerUseCase : gmap string string)
    : UroboroConfigRecommendation :=
  let primary := default "mistral:latest" (bestModelPerUseCase !! "capture") in
  let useCaseModels := bestModelPerUseCase in
  let fallbacks := ["mistral:latest"; "llama2:7b"; "orca-mini:3b"] in
  {| PrimaryModel := primary;
     FallbackChain := fallbacks;
     UseCaseModels := useCaseModels;
     TimeoutConfig := map_imap timeoutFor bestModelPerUseCase;
     EnvironmentVars :=
       map_fold (fun useCase model env =>
                   <["UROBORO_MODEL_" +:+ ToUpper useCase := model]> env)
                (<["UROBORO_MODEL" := primary]> ∅) useCaseModels |}.

(** *** Running the tests *)

(** [checkAvailableModels]; [listing] is the output of the one
    [ollama list] it runs, [None] when that fails. *)
Definition checkAvailableModels (listing : option string) (models : list string)
    : list string :=
  match listing with
  | None => []
  | Some modelList =>
      fold_left (fun available model =>
                   if Contains modelList model then available ++ [model] else available)
                models []
  end.

Definition testModelWithUroboroCase (model : string) (testCase : UroboroTestCase)
    (call : ModelComparison.Invocation) : UroboroTestResult :=
  match ModelComparison.outcome call with
  | LowSpec.Failed err =>
      {| Model := model; UseCase := TestCaseUseCase testCase; TestName := Name testCase;
         Input := TestCaseInput testCase; Output := "";
         ResponseTime := ModelComparison.elapsed call; Success := false; Error := err;
         QualityScore := 0; FormatCompliance := false; TechnicalAccuracy := false;
         Timestamp := ModelComparison.startedAt call |}
  | LowSpec.Exited stdout =>
      {| Model := model; UseCase := TestCaseUseCase testCase; TestName := Name testCase;
         Input := TestCaseInput testCase; Output := TrimSpace stdout;
         ResponseTime := ModelComparison.elapsed call; Success := true; Error := "";
         QualityScore := 0; FormatCompliance := false; TechnicalAccuracy := false;
         Timestamp := ModelComparison.startedAt call |}
  end.

Definition properTerms : list string :=
  ["API"; "HTTP"; "REST"; "JSON"; "SQL"; "NoSQL"; "Docker"; "Kubernetes"; "Go"; "JavaScript"].

(** One word of the output seen by [checkTechnicalAccuracy], on
    (correctTerms, totalTechnicalTerms). *)
Definition countTerm (counts : Z * Z) (word : string) : Z * Z :=
  let cleanWord := Trim word ".,!?;:" in
  if existsb (String.eqb cleanWord) properTerms then
    let total := snd counts + 1 in
    if String.eqb cleanWord word || HasSuffix word cleanWord
    then (fst counts + 1, total) else (fst counts, total)
  else counts.

Definition checkTechnicalAccuracy (output : string) : bool :=
  let '(correctTerms, totalTechnicalTerms) := fold_left countTerm (Fields output) (0, 0) in
  if totalTechnicalTerms =? 0 then true
  else Qle_bool 0.8 (inject_Z correctTerms / inject_Z totalTechnicalTerms).

(** The three assignments that follow the call in [runUroboroExperiments]. *)
Definition assessResult (result : UroboroTestResult) (testCase : UroboroTestCase)
    : UroboroTestResult :=
  {| Model := Model result; UseCase := UseCase result; TestName := TestName result;
     Input := Input result; Output := Output result;
     ResponseTime := ResponseTime result; Success := Success result;
     Error := Error result;
     QualityScore := evaluateQuality result testCase;
     FormatCompliance := checkFormatCompliance (Output result) (TestCaseUseCase testCase);
     TechnicalAccuracy := checkTechnicalAccuracy (Output result);
     Timestamp := Timestamp result |}.

(** [runUroboroExperiments]: the results appended to the experiment. *)
Definition runUroboroExperiments
    (world : string -> UroboroTestCase -> nat -> ModelComparison.Invocation)
    (testCases : list UroboroTestCase) (runs : Z) (models : list string)
    : list UroboroTestResult :=
  flat_map (fun model =>
    flat_map (fun testCase =>
      List.map (fun run =>
                  assessResult (testModelWithUroboroCase model testCase
                                  (world model testCase run)) testCase)
               (seq 0 (Z.to_nat runs)))
      testCases) models.

(** *** Ranking per use case

    [Reason], a text formatted from the average score, the average time
    and the run counts, is left out of [ModelRanking]. *)
Record ModelRanking := {
  RankedModel : string;
  Score : Q
}.

Definition speedScore (responseTime : Z) : Q :=
  let s := (5.0 - Seconds responseTime / 10.0)%Q in
  if Qltb s 1 then 1%Q else s.

Definition testScore (res : UroboroTestResult) : Q :=
  let formatScore := if FormatCompliance res then 5.0%Q else 0.0%Q in
  (inject_Z (QualityScore res) * 0.5 + speedScore (ResponseTime res) * 0.3
   + formatScore * 0.2)%Q.

(** One result of a model, on (totalScore, successfulRuns, totalTime). *)
Definition addRun (acc : Q * Z * Z) (res : UroboroTestResult) : Q * Z * Z :=
  let '(totalScore, successfulRuns, totalTime) := acc in
  if Success res
  then ((totalScore + testScore res)%Q, successfulRuns + 1,
        wrap64 (totalTime + ResponseTime res))
  else acc.

(** The body of the loop over the models: the ranking entry of a model,
    if it has a successful run. *)
Definition rankModel (model : string) (modelRes : list UroboroTestResult)
    : option ModelRanking :=
  match modelRes with
  | [] => None
  | _ =>
      let '(totalScore, successfulRuns, totalTime) := fold_left addRun modelRes (0.0%Q, 0, 0) in
      if 0 <? successfulRuns
      then Some {| RankedModel := model;
                   Score := (totalScore / inject_Z successfulRuns)%Q |}
      else None
  end.

(** [rankings[i], rankings[j] = rankings[j], rankings[i]] when entry [j]
    scores more than entry [i]. *)
Definition swapIfGreater (i j : nat) (rankings : list ModelRanking) : list ModelRanking :=
  match rankings !! i, rankings !! j with
  | Some ri, Some rj =>
      if Qltb (Score ri) (Score rj) then <[i := rj]> (<[j := ri]> rankings) else rankings
  | _, _ => rankings
  end.

(** The two nested loops that sort the rankings by score, descending. *)
Definition sortRankings (rankings : list ModelRanking) : list ModelRanking :=
  let n := length rankings in
  fold_left (fun rankings i =>
               fold_left (fun rankings j => swapIfGreater i j rankings)
                         (seq (S i) (n - S i)) rankings)
            (seq 0 (n - 1)) rankings.

(** What one pass of the inner loop does to the entry at position [i],
    here [cur], and to the entries after it: the pass leaves the greatest
    of them at position [i]. *)
Fixpoint bubble (cur : ModelRanking) (rest : list ModelRanking)
    : ModelRanking * list ModelRanking :=
  match rest with
  | [] => (cur, [])
  | next :: rest' =>
      if Qltb (Score cur) (Score next)
      then let '(top, rest'') := bubble next rest' in (top, cur :: rest'')
      else let '(top, rest'') := bubble cur rest' in (top, next :: rest'')
  end.

Definition groupByModel (groups : gmap string (list UroboroTestResult))
    (result : UroboroTestResult) : gmap string (list UroboroTestResult) :=
  <[Model result := default [] (groups !! Model result) ++ [result]]> groups.

Definition groupByUseCase (groups : gmap string (list UroboroTestResult))
    (result : UroboroTestResult) : gmap string (list UroboroTestResult) :=
  <[UseCase result := default [] (groups !! UseCase result) ++ [result]]> groups.

(** [analyzeUseCaseResults], given the order [iter] in which the models
    of the map are visited. *)
Definition analyzeUseCaseResultsWith
    (iter : gmap string (list UroboroTestResult) -> list (string * list UroboroTestResult))
    (results : list UroboroTestResult) : list ModelRanking :=
  let modelResults := fold_left groupByModel results ∅ in
  let rankings :=
    flat_map (fun entry => option_list (rankModel (fst entry) (snd entry)))
             (iter modelResults) in
  sortRankings rankings.

(** *** Performance recommendations *)

(** One result seen by the search for the fastest model, on
    (fastestModel, fastestTime). *)
Definition considerFastest (best : string * Z) (result : UroboroTestResult) : string * Z :=
  if Success result && (ResponseTime result <? snd best)
  then (Model result, ResponseTime result) else best.

(** One result on the map of (success, total) counters per model. *)
Definition countReliability (modelReliability : gmap string (Z * Z))
    (result : UroboroTestResult) : gmap string (Z * Z) :=
  let rel := default (0, 0) (modelReliability !! Model result) in
  let rel := (if Success result then fst rel + 1 else fst rel, snd rel + 1) in
  <[Model result := rel]> modelReliability.

Definition reliability (rel : Z * Z) : Q := (inject_Z (fst rel) / inject_Z (snd rel))%Q.

(** One model seen by the search for the most reliable one, on
    (mostReliableModel, bestReliability). *)
Definition considerReliable (best : string * Q) (entry : string * (Z * Z)) : string * Q :=
  if Qltb (snd best) (reliability (snd entry)) then (fst entry, reliability (snd entry))
  else best.

Definition generatePerformanceRecommendationsWith
    (order : gmap string (Z * Z) -> list (string * (Z * Z)))
    (results : list UroboroTestResult) : gmap string string :=
  let fastestModel := fst (fold_left considerFastest results ("", ModelComparison.Hour)) in
  let modelReliability := fold_left countReliability results ∅ in
  let mostReliableModel :=
    fst (fold_left considerReliable (order modelReliability) ("", 0.0%Q)) in
  <["general" := "Consider using task-specific models for best results"]>
    (<["most_reliable" := mostReliableModel]> (<["fastest" := fastestModel]> ∅)).

(** *** The summary *)

Record UroboroSummary := {
  BestModelPerUseCase : gmap string string;
  PerformanceRecommendations : gmap string string;
  QualityRankings : gmap string (list ModelRanking);
  UroboroConfig : UroboroConfigRecommendation
}.

Definition generateUroboroSummaryWith
    (iter : gmap string (list UroboroTestResult) -> list (string * list UroboroTestResult))
    (order : gmap string (Z * Z) -> list (string * (Z * Z)))
    (results : list UroboroTestResult) : UroboroSummary :=
  let useCaseResults := fold_left groupByUseCase results ∅ in
  let qualityRankings := analyzeUseCaseResultsWith iter <$> useCaseResults in
  let bestModelPerUseCase := omap (fun rankings => RankedModel <$> head rankings) qualityRankings in
  {| BestModelPerUseCase := bestModelPerUseCase;
     PerformanceRecommendations := generatePerformanceRecommendationsWith order results;
     QualityRankings := qualityRankings;
     UroboroConfig := generateConfigRecommendation bestModelPerUseCase |}.

End UroboroTester.

(** ** The numeric code on IEEE binary64

    The same functions on hardware doubles, for non-negative integer
    arguments: [float64(n)] is [of_uint63], a decimal constant stands for
    the nearest double, and the operations round to nearest even as Go's
    do. *)

Set Warnings "-inexact-float".

Module Binary64.

Definition ofInt (n : Z) : float := PrimFloat.of_uint63 (Uint63.of_Z n).

Definition assessOOMRisk (memoryUsed availableMemory : Z) : string :=
  if (memoryUsed <=? 0) || (availableMemory <=? 0) then "unknown"
  else
    let usage := (ofInt memoryUsed / ofInt availableMemory)%float in
    if (usage <? 0.5)%float then "low"
    else if (usage <? 0.8)%float then "medium"
    else "high".

Definition assessOutputQuality (output useCase : string) : float :=
  let length := len output in
  let ratio := (ofInt length / ofInt (LowSpec.expectedLength useCase))%float in
  if (ratio <? 0.3)%float then 1.0%float
  else if (ratio <? 0.7)%float then 2.5%float
  else if (ratio <=? 1.5)%float then 4.0%float
  else if (ratio <=? 2.0)%float then 3.0%float
  else 2.0%float.

(** [time.Duration.Seconds] *)
Definition Seconds (d : Z) : float :=
  (ofInt (Z.quot d Second) + ofInt (Z.rem d Second) / 1e9)%float.

Definition calculateUsabilityScore (responseTime : Z) (qualityScore : float)
    (priority : string) : float :=
  let timeScore := (5.0 - Seconds responseTime / 10.0)%float in
  let timeScore := if (timeScore <? 1.0)%float then 1.0%float else timeScore in
  if String.eqb priority "speed" then (0.7 * timeScore + 0.3 * qualityScore)%float
  else if String.eqb priority "quality" then (0.3 * timeScore + 0.7 * qualityScore)%float
  else if String.eqb priority "memory" then (0.5 * timeScore + 0.5 * qualityScore)%float
  else (0.5 * timeScore + 0.5 * qualityScore)%float.

End Binary64.

(** ** Reading the claims

    Definitions that follow the wording of the specification; the
    theorems below compare them with the code. *)

Module Spec.




(** The model names of an [ollama list] listing: the first field of every
    line after the header that has one. *)
Definition listedModels (output : string) : list string :=
  flat_map (fun line => match Fields line with name :: _ => [name] | [] => [] end)
           (tail (SplitLines output)).

End Spec.

(** ** Sample observations

    Concrete hosts, readings of [/proc/meminfo] and process runs on which
    the code is evaluated below. *)

Module Samples.

Import LowSpec.

Definition nl : string := String "010"%char "".

(** A [/proc/meminfo] whose [MemAvailable] line reads [kB] kilobytes. *)
Definition meminfo (kB : string) : option string :=
  Some ("MemTotal:       16384000 kB" +:+ nl +:+
        "MemFree:          204800 kB" +:+ nl +:+
        "MemAvailable:   " +:+ kB +:+ " kB" +:+ nl +:+
        "Buffers:          102400 kB" +:+ nl).

(** A four-core laptop with 4096 MB available: thermal profile "laptop",
    on battery. *)
Definition laptop : HardwareProfile :=
  profileHardware (Some "thinkpad") "linux" "amd64" 4 (8000, 4096) "SSD".

(** An eight-core desktop with 12000 MB available: thermal profile
    "desktop", plugged in. *)
Definition workstation : HardwareProfile :=
  profileHardware (Some "tower") "linux" "amd64" 8 (16000, 12000) "SSD".

Definition noScenario : TestScenario :=
  {| Name := ""; Description := ""; UseCase := ""; ScenarioPrompt := "";
     MaxTokens := 0; Priority := "" |}.

(** The second scenario of the built-in catalog: "Memory-Efficient
    Summary", use case "summary", priority "memory". *)
Definition summaryScenario : TestScenario := nth 1 getLowSpecTestScenarios noScenario.

(** A process that takes 3000 MB: 8000 MB are available before it starts,
    5000 MB after it exits. It answers in 45 s with a two-byte output. *)
Definition hungryRun : ProcRun :=
  {| startedAt := 0;
     meminfoBefore := meminfo "8192000";
     meminfoAfter := meminfo "5120000";
     elapsed := 45 * Second;
     outcome := Exited ("ok" +:+ nl) |}.

Definition hungryResult : BenchmarkResult :=
  runLowSpecTest "linux" "orca-mini:3b" summaryScenario laptop hungryRun.

Definition goodOutput : string :=
  "Fixed the authentication bug in the user service by validating tokens first.".

(** A quick run with an output of fitting length. *)
Definition quickRun : ProcRun :=
  {| startedAt := 60 * Second;
     meminfoBefore := meminfo "8192000";
     meminfoAfter := meminfo "8192000";
     elapsed := 3 * Second;
     outcome := Exited (goodOutput +:+ nl) |}.

Definition quickResult : BenchmarkResult :=
  runLowSpecTest "linux" "mistral:latest" summaryScenario laptop quickRun.

(** Two models give the same output for the summary scenario, one after
    50 s and one after 45 s. *)
Definition tieWorld (model : string) (scenario : TestScenario) : ProcRun :=
  {| startedAt := 0;
     meminfoBefore := meminfo "8192000";
     meminfoAfter := meminfo "8192000";
     elapsed := if String.eqb model "llama2:7b" then 50 * Second else 45 * Second;
     outcome := Exited (goodOutput +:+ nl) |}.

Definition tieResults : list BenchmarkResult :=
  runLowSpecBenchmarks "linux" tieWorld ["llama2:7b"; "mistral:latest"]
    [summaryScenario] workstation.

Definition slowTieResult : BenchmarkResult :=
  runLowSpecTest "linux" "llama2:7b" summaryScenario workstation
    (tieWorld "llama2:7b" summaryScenario).
Definition fastTieResult : BenchmarkResult :=
  runLowSpecTest "linux" "mistral:latest" summaryScenario workstation
    (tieWorld "mistral:latest" summaryScenario).

(** Two blog outputs of the same length, one plain prose, one with a
    markdown header, a bullet and technical vocabulary. *)
Definition plainBlog : string :=
  "we went for a long walk and talked about a great many things.".
Definition structuredBlog : string :=
  "## Resilience" +:+ nl +:+ "- the API server retries calls to the database.".

(** One failed invocation of the only model tested on a blog prompt. *)
Definition failedBlogRun : ModelComparison.ModelResult :=
  {| ModelComparison.Model := "orca-mini:3b";
     ModelComparison.Prompt := "Transform these development activities into an engaging blog post: 'Built microservice architecture'";
     ModelComparison.Output := "";
     ModelComparison.ResponseTime := 45 * Second;
     ModelComparison.Success := false;
     ModelComparison.Error := "signal: killed";
     ModelComparison.OutputLength := 0;
     ModelComparison.Timestamp := 0 |}.

(** A successful answer [output] of the uroboro tester for [useCase]. *)
Definition answered (useCase output : string) : UroboroTester.UroboroTestResult :=
  {| UroboroTester.Model := "mistral:latest";
     UroboroTester.UseCase := useCase;
     UroboroTester.TestName := "sample";
     UroboroTester.Input := "";
     UroboroTester.Output := output;
     UroboroTester.ResponseTime := 3 * Second;
     UroboroTester.Success := true;
     UroboroTester.Error := "";
     UroboroTester.QualityScore := 0;
     UroboroTester.FormatCompliance := false;
     UroboroTester.TechnicalAccuracy := false;
     UroboroTester.Timestamp := 0 |}.

Definition caseFor (useCase : string) : UroboroTester.UroboroTestCase :=
  {| UroboroTester.Name := "sample";
     UroboroTester.TestCaseUseCase := useCase;
     UroboroTester.TestCaseInput := "";
     UroboroTester.Prompt := "";
     UroboroTester.ExpectedLen := 150 |}.

(** An output of [n] bytes. *)
Fixpoint filler (n : nat) : string :=
  match n with
  | O => ""
  | S n' => String "x"%char (filler n')
  end.

(** Output lengths around the band limits of the capture use case
    (expected length 100). *)
Definition captureLengths : list nat := [0; 29; 30; 69; 70; 150; 151; 200; 201]%nat.

(** An invocation that prints [goodOutput] after 3 s. *)
Definition promptAnswer : ModelComparison.Invocation :=
  {| ModelComparison.startedAt := 0;
     ModelComparison.elapsed := 3 * Second;
     ModelComparison.outcome := Exited (goodOutput +:+ nl) |}.

(** An invocation killed after 45 s. *)
Definition killedCall : ModelComparison.Invocation :=
  {| ModelComparison.startedAt := 0;
     ModelComparison.elapsed := 45 * Second;
     ModelComparison.outcome := Failed "signal: killed" |}.

(** Two runs of a capture case: [mistral:latest] answers both,
    [llama2:7b] is killed both times. *)
Definition captureWorld (model : string) (testCase : UroboroTester.UroboroTestCase)
    (run : nat) : ModelComparison.Invocation :=
  if String.eqb model "mistral:latest" then promptAnswer else killedCall.

Definition captureRuns : list UroboroTester.UroboroTestResult :=
  UroboroTester.runUroboroExperiments captureWorld [caseFor "capture"] 2
    ["llama2:7b"; "mistral:latest"].

(** What [ollama list] prints with three models installed, one of them
    an embedding model. *)
Definition sampleListing : option string :=
  Some ("NAME                      ID            SIZE    MODIFIED" +:+ nl +:+
        "llama2:7b                 78e26419b446  3.8 GB  2 days ago" +:+ nl +:+
        "nomic-embedding:latest    0a109f422b47  274 MB  3 days ago" +:+ nl +:+
        "mistral:latest            61e88e884507  4.1 GB  5 days ago" +:+ nl).

End Samples.

(** * Properties *)

(** ** Comparisons on [Q] *)

Lemma Qltb_true (a b : Q) : Qltb a b = true <-> (a < b)%Q.
Proof.
  unfold Qltb. split.
  - intros H. apply Qlt_alt. destruct (a ?= b)%Q; congruence.
  - intros H. apply Qlt_alt in H. unfold Qcompare in *. rewrite H. reflexivity.
Qed.

Lemma Qltb_false (a b : Q) : Qltb a b = false <-> (b <= a)%Q.
Proof.
  split.
  - intros H. apply Qnot_lt_le. intros L. apply Qltb_true in L. congruence.
  - intros H. destruct (Qltb a b) eqn:E; [|reflexivity].
    apply Qltb_true in E. exfalso. exact (Qlt_not_le _ _ E H).
Qed.

Lemma Qle_bool_false (a b : Q) : Qle_bool a b = false <-> (b < a)%Q.
Proof.
  split.
  - intros H. apply Qnot_le_lt. intros L. apply Qle_bool_iff in L. congruence.
  - intros H. destruct (Qle_bool a b) eqn:E; [|reflexivity].
    apply Qle_bool_iff in E. exfalso. exact (Qlt_not_le _ _ H E).
Qed.

(** The ratio of two integers, the second one positive, as a fraction;
    comparing it with [p/q] is comparing cross products. *)
Lemma ratio_Qmake (m a : Z) :
  0 < a -> (inject_Z m / inject_Z a == m # Z.to_pos a)%Q.
Proof.
  intros Ha. rewrite (Qmake_Qdiv m (Z.to_pos a)). rewrite Z2Pos.id by lia. reflexivity.
Qed.

Lemma ratio_lt (m a p : Z) (q : positive) :
  0 < a -> (inject_Z m / inject_Z a < p # q)%Q <-> m * Zpos q < p * a.
Proof.
  intros Ha. pose proof (ratio_Qmake m a Ha) as E. split.
  - intros H. rewrite E in H. unfold Qlt in H. simpl in H.
    rewrite Z2Pos.id in H by lia. exact H.
  - intros H. rewrite E. unfold Qlt. simpl. rewrite Z2Pos.id by lia. exact H.
Qed.

Lemma ratio_gt (m a p : Z) (q : positive) :
  0 < a -> (p # q < inject_Z m / inject_Z a)%Q <-> p * a < m * Zpos q.
Proof.
  intros Ha. pose proof (ratio_Qmake m a Ha) as E. split.
  - intros H. rewrite E in H. unfold Qlt in H. simpl in H.
    rewrite Z2Pos.id in H by lia. exact H.
  - intros H. rewrite E. unfold Qlt. simpl. rewrite Z2Pos.id by lia. exact H.
Qed.

Lemma ratio_ge (m a p : Z) (q : positive) :
  0 < a -> (p # q <= inject_Z m / inject_Z a)%Q <-> p * a <= m * Zpos q.
Proof.
  intros Ha. split.
  - intros H. apply Z.nlt_ge. intros L. apply (ratio_lt m a p q Ha) in L.
    exact (Qlt_not_le _ _ L H).
  - intros H. apply Qnot_lt_le. intros L. apply (ratio_lt m a p q Ha) in L. lia.
Qed.

Lemma ratio_le (m a p : Z) (q : positive) :
  0 < a -> (inject_Z m / inject_Z a <= p # q)%Q <-> m * Zpos q <= p * a.
Proof.
  intros Ha. split.
  - intros H. apply Z.nlt_ge. intros L. apply (ratio_gt m a p q Ha) in L.
    exact (Qlt_not_le _ _ L H).
  - intros H. apply Qnot_lt_le. intros L. apply (ratio_gt m a p q Ha) in L. lia.
Qed.

(** ** Byte strings *)

Lemma HasPrefix_spec (s prefix : string) :
  HasPrefix s prefix = true <-> exists rest, s = prefix +:+ rest.
Proof.
  revert s. induction prefix as [|p prefix IH]; intros s; simpl.
  - split; [intros _; exists s; reflexivity | reflexivity].
  - destruct s as [|c s]; simpl.
    + split; [discriminate | intros [rest H]; discriminate].
    + rewrite andb_true_iff, Ascii.eqb_eq, IH. split.
      * intros [-> [rest ->]]. exists rest. reflexivity.
      * intros [rest H]. injection H as -> ->. split; [reflexivity | eauto].
Qed.

(** [Contains] is the substring relation. *)
Lemma Contains_spec (s substr : string) :
  Contains s substr = true <-> exists pre post, s = pre +:+ substr +:+ post.
Proof.
  induction s as [|c s IH].
  - simpl. rewrite orb_false_r, HasPrefix_spec. split.
    + intros [rest H]. exists "", rest. exact H.
    + intros [pre [post H]]. destruct pre; [exists post; exact H | discriminate].
  - cbn [Contains]. rewrite orb_true_iff, HasPrefix_spec, IH. split.
    + intros [[rest H] | [pre [post H]]].
      * exists "", rest. exact H.
      * exists (String c pre), post. simpl. rewrite H. reflexivity.
    + intros [pre [post H]]. destruct pre as [|c' pre].
      * left. exists post. exact H.
      * right. injection H as -> ->. eauto.
Qed.

Lemma allSpace_fields (s : string) : allSpace s = true -> fields "" s = [].
Proof.
  induction s as [|c s IH]; simpl; [reflexivity|].
  intros H. apply andb_true_iff in H as [Hc Hs]. rewrite Hc. auto.
Qed.

Lemma trimRight_empty (s : string) : trimRight s = "" -> allSpace s = true.
Proof.
  destruct s as [|c s]; [reflexivity|].
  cbn [trimRight]. destruct (allSpace (String c s)); [reflexivity | discriminate].
Qed.

Lemma trimLeft_allSpace (s : string) : allSpace (trimLeft s) = true -> allSpace s = true.
Proof.
  induction s as [|c s IH]; [reflexivity|].
  simpl. destruct (isSpace c) eqn:E; simpl.
  - exact IH.
  - rewrite E. discriminate.
Qed.

(** A line that [TrimSpace] empties has no field. *)
Lemma blank_line_no_field (line : string) : TrimSpace line = "" -> Fields line = [].
Proof.
  intros H. apply allSpace_fields, trimLeft_allSpace, trimRight_empty, H.
Qed.

(** ** Model discovery *)

Section Discovery.
Import LowSpec.

Lemma considerLine_filter (models : list string) (line : string) :
  considerLine models line =
  models ++ List.filter (fun name => negb (Contains name "embedding"))
              match Fields line with name :: _ => [name] | [] => [] end.
Proof.
  unfold considerLine.
  destruct (String.eqb (TrimSpace line) "") eqn:E.
  - apply String.eqb_eq in E. rewrite (blank_line_no_field _ E), app_nil_r. reflexivity.
  - destruct (Fields line) as [|name rest]; simpl.
    + rewrite app_nil_r. reflexivity.
    + destruct (negb (Contains name "embedding"));
        [reflexivity | rewrite app_nil_r; reflexivity].
Qed.

Lemma scan_lines_filter (lines : list string) (models : list string) :
  fold_left considerLine lines models =
  models ++ List.filter (fun name => negb (Contains name "embedding"))
              (flat_map (fun line => match Fields line with name :: _ => [name] | [] => [] end)
                        lines).
Proof.
  revert models. induction lines as [|line lines IH]; intros models; simpl.
  - rewrite app_nil_r. reflexivity.
  - rewrite IH, considerLine_filter, List.filter_app, app_assoc. reflexivity.
Qed.

Lemma discovered_without_embedding (listing : option string) :
  Forall (fun name => Contains name "embedding" = false) (getAvailableModels listing).
Proof.
  destruct listing as [output|]; [|constructor].
  unfold getAvailableModels. rewrite scan_lines_filter.
  apply List.Forall_forall. intros name H.
  apply List.filter_In in H as [_ H].
  apply negb_true_iff in H. exact H.
Qed.

Lemma benchmarked_models (goos : string) (world : string -> TestScenario -> ProcRun)
    (models : list string) (scenarios : list TestScenario) (profile : HardwareProfile)
    (result : BenchmarkResult) :
  In result (runLowSpecBenchmarks goos world models scenarios profile) ->
  In (Model result) models.
Proof.
  unfold runLowSpecBenchmarks. rewrite in_flat_map.
  intros (model & Hm & H). apply List.in_map_iff in H as (scenario & <- & _).
  unfold runLowSpecTest. destruct (outcome _); exact Hm.
Qed.

(** C10. Model discovery returns, in listing order, exactly the listed
    model names that do not contain the substring "embedding": every
    installed model whose identifier contains it is left out, and no
    result of the benchmark run on the discovered models is for such a
    model. *)
Theorem getAvailableModels_excludes_embedding (output : string) :
  getAvailableModels (Some output)
    = List.filter (fun name => negb (Contains name "embedding")) (Spec.listedModels output)
  /\ Forall (fun name => Contains name "embedding" = false)
            (getAvailableModels (Some output))
  /\ forall goos world scenarios profile,
       Forall (fun result => Contains (Model result) "embedding" = false)
              (runLowSpecBenchmarks goos world (getAvailableModels (Some output))
                                    scenarios profile).
Proof.
  split; [|split].
  - unfold getAvailableModels. rewrite scan_lines_filter. reflexivity.
  - apply discovered_without_embedding.
  - intros goos world scenarios profile. apply List.Forall_forall. intros result H.
    apply benchmarked_models in H.
    pose proof (discovered_without_embedding (Some output)) as D.
    rewrite List.Forall_forall in D. exact (D _ H).
Qed.

End Discovery.

(** ** Out-of-memory risk *)

Section Risk.
Import LowSpec.


(** C9. When the memory delta or the available RAM is not positive the
    classifier answers "unknown", which is none of low, medium and high;
    a non-positive delta is therefore never classified low. *)
Theorem assessOOMRisk_unknown (memoryUsed availableRAM : Z) :
  memoryUsed <= 0 \/ availableRAM <= 0 ->
  assessOOMRisk memoryUsed availableRAM = "unknown"
  /\ ~ In (assessOOMRisk memoryUsed availableRAM) ["low"; "medium"; "high"].
Proof.
  intros H.
  assert (E : assessOOMRisk memoryUsed availableRAM = "unknown").
  { unfold assessOOMRisk.
    destruct (memoryUsed <=? 0) eqn:E1; [reflexivity|].
    destruct (availableRAM <=? 0) eqn:E2; [reflexivity|]. lia. }
  split; [exact E|]. rewrite E. simpl. intros [C|[C|[C|[]]]]; discriminate.
Qed.

Lemma assessOOMRisk_unknown_witness :
  (-3000 <= 0 \/ 4096 <= 0)
  /\ LowSpec.assessOOMRisk (-3000) 4096 = "unknown"
  /\ ~ In (LowSpec.assessOOMRisk (-3000) 4096) ["low"; "medium"; "high"].
Proof.
  split; [left; lia|].
  apply (assessOOMRisk_unknown (-3000) 4096). left. lia.
Defined.

(** The flag recorded on a benchmark result follows the same rule. *)
Lemma recorded_risk_unknown (goos model : string) (scenario : TestScenario)
    (profile : HardwareProfile) (run : ProcRun) :
  let result := runLowSpecTest goos model scenario profile run in
  PeakMemoryMB result <= 0 -> OOMRisk result = "unknown".
Proof.
  unfold runLowSpecTest. destruct (outcome run); simpl; intros H;
    unfold assessOOMRisk; apply Z.leb_le in H; rewrite H; reflexivity.
Qed.



End Risk.

(** ** Usability score *)

Section Usability.
Import LowSpec Samples.





End Usability.

(** ** Loops that keep the first strict maximum *)

Section FirstMaximum.
Context {A : Type} (name : A -> string) (score : A -> Q).

Lemma keepBest_fold (l : list A) (b : string) (s : Q) :
  (Forall (fun x => (score x <= s)%Q) l /\ fold_left (keepBest name score) l (b, s) = (b, s))
  \/ exists pre x post,
       l = pre ++ x :: post
       /\ fold_left (keepBest name score) l (b, s) = (name x, score x)
       /\ (s < score x)%Q
       /\ Forall (fun y => (score y < score x)%Q) pre
       /\ Forall (fun y => (score y <= score x)%Q) post.
Proof.
  revert b s. induction l as [|a l IH]; intros b s.
  - left. split; [constructor | reflexivity].
  - cbn [fold_left]. unfold keepBest at 2 4. cbn [snd].
    destruct (Qltb s (score a)) eqn:L.
    + apply Qltb_true in L. right.
      destruct (IH (name a) (score a)) as [[Hall ->] | (pre & x & post & -> & -> & Hs & Hpre & Hpost)].
      * exists [], a, l. repeat split; auto.
      * exists (a :: pre), x, post. repeat split; auto.
        eapply Qlt_trans; eassumption.
    + apply Qltb_false in L.
      destruct (IH b s) as [[Hall ->] | (pre & x & post & -> & -> & Hs & Hpre & Hpost)].
      * left. split; [constructor; assumption | reflexivity].
      * right. exists (a :: pre), x, post. repeat split; auto.
        constructor; [|assumption]. eapply Qle_lt_trans; eassumption.
Qed.

Lemma keepBest_stays (l : list A) (b : string) (s : Q) :
  Forall (fun x => (score x <= s)%Q) l ->
  fold_left (keepBest name score) l (b, s) = (b, s).
Proof.
  induction 1 as [|a l Ha _ IH]; [reflexivity|].
  cbn [fold_left]. unfold keepBest at 2. cbn [snd].
  apply Qltb_false in Ha. rewrite Ha. exact IH.
Qed.

Lemma keepBest_first (pre post : list A) (x : A) (b : string) (s : Q) :
  (s < score x)%Q ->
  Forall (fun y => (score y < score x)%Q) pre ->
  Forall (fun y => (score y <= score x)%Q) post ->
  fold_left (keepBest name score) (pre ++ x :: post) (b, s) = (name x, score x).
Proof.
  intros Hs Hpre Hpost. revert b s Hs.
  induction Hpre as [|a pre Ha _ IH]; intros b s Hs.
  - cbn [app fold_left]. unfold keepBest at 2. cbn [snd].
    apply Qltb_true in Hs. rewrite Hs. apply keepBest_stays, Hpost.
  - cbn [app fold_left]. unfold keepBest at 2. cbn [snd].
    destruct (Qltb s (score a)); apply IH; assumption.
Qed.

End FirstMaximum.

(** ** Memory delta *)

Section MemoryDelta.
Import LowSpec Samples.

Lemma digits_nonneg (s : string) (acc n : Z) :
  0 <= acc -> digits acc s = Some n -> 0 <= n.
Proof.
  revert acc. induction s as [|c s IH]; intros acc Hacc; simpl.
  - intros [= <-]. exact Hacc.
  - unfold digit. destruct (_ && _) eqn:E; [|discriminate].
    apply IH. apply andb_true_iff in E as [E1 E2].
    apply N.leb_le in E1. lia.
Qed.

Lemma ParseInt_range (s : string) (v : Z) :
  ParseInt s = Some v -> minInt64 <= v <= maxInt64.
Proof.
  unfold ParseInt.
  destruct (match s with
            | String "+"%char r => (false, r)
            | String "-"%char r => (true, r)
            | _ => (false, s)
            end) as [neg body].
  destruct body; [discriminate|].
  destruct (digits 0 _); [|discriminate].
  destruct (_ && _) eqn:E; [|discriminate].
  intros [= <-]. apply andb_true_iff in E as [E1 E2].
  apply Z.leb_le in E1, E2. lia.
Qed.

Lemma scanMemAvailable_range (lines : list string) (mb : Z) :
  scanMemAvailable lines = Some mb -> - 2 ^ 53 <= mb <= 2 ^ 53.
Proof.
  induction lines as [|line lines IH]; cbn [scanMemAvailable]; [discriminate|].
  destruct (HasPrefix line "MemAvailable:"); [|exact IH].
  destruct (Fields line) as [|f0 [|f1 rest]]; try exact IH.
  destruct (ParseInt f1) as [val|] eqn:P; [|exact IH].
  intros [= <-]. apply ParseInt_range in P. unfold minInt64, maxInt64 in P.
  split.
  - apply Z.quot_le_lower_bound; lia.
  - apply Z.quot_le_upper_bound; lia.
Qed.

Lemma getCurrentMemoryUsage_range (goos : string) (meminfo : option string) :
  - 2 ^ 53 <= getCurrentMemoryUsage goos meminfo <= 2 ^ 53.
Proof.
  unfold getCurrentMemoryUsage.
  destruct (String.eqb goos "linux"); [|lia].
  destruct meminfo as [data|]; [|lia].
  destruct (scanMemAvailable _) eqn:E; [|lia].
  exact (scanMemAvailable_range _ _ E).
Qed.

(** What every invocation records: the reading taken after the process
    exits minus the reading taken before it starts (no wrap-around can
    occur), each reading being the available memory. *)
Lemma peak_memory_is_after_minus_before (goos model : string) (scenario : TestScenario)
    (profile : HardwareProfile) (run : ProcRun) :
  PeakMemoryMB (runLowSpecTest goos model scenario profile run)
  = getCurrentMemoryUsage goos (meminfoAfter run)
    - getCurrentMemoryUsage goos (meminfoBefore run).
Proof.
  pose proof (getCurrentMemoryUsage_range goos (meminfoAfter run)) as Ha.
  pose proof (getCurrentMemoryUsage_range goos (meminfoBefore run)) as Hb.
  assert (W : forall z, - 2 ^ 63 <= z < 2 ^ 63 -> wrap64 z = z).
  { intros z Hz. unfold wrap64. rewrite Z.mod_small; lia. }
  unfold runLowSpecTest. destruct (outcome run); simpl; apply W; lia.
Qed.

(** C1, on a process that takes 3000 MB of the 8000 MB available before
    it starts: the recorded delta is after - before = -3000, not
    before - after = 3000, and the risk flag derived from it is "unknown". *)
Theorem peak_memory_delta_is_negated :
  getCurrentMemoryUsage "linux" (meminfoBefore hungryRun) = 8000
  /\ getCurrentMemoryUsage "linux" (meminfoAfter hungryRun) = 5000
  /\ PeakMemoryMB hungryResult = -3000
  /\ PeakMemoryMB hungryResult <> 8000 - 5000
  /\ OOMRisk hungryResult = "unknown".
Proof. vm_compute. repeat split; congruence. Qed.

End MemoryDelta.

(** ** Ranking of the low-spec benchmark *)

Section Ranking.
Import LowSpec Samples.

Lemma considerResult_keepBest (profile : HardwareProfile) :
  considerResult profile = keepBest Model (penalizedScore profile).
Proof. reflexivity. Qed.

(** The winner of one group: nobody when no score is positive, otherwise
    the first result, in list order, that reaches the greatest score. *)
Lemma findOptimal_cases (results : list BenchmarkResult) (profile : HardwareProfile) :
  (Forall (fun r => (penalizedScore profile r <= 0)%Q) results
   /\ findOptimalModelForUseCase results profile = "")
  \/ exists pre best post,
       results = pre ++ best :: post
       /\ findOptimalModelForUseCase results profile = Model best
       /\ (0 < penalizedScore profile best)%Q
       /\ Forall (fun r => (penalizedScore profile r < penalizedScore profile best)%Q) pre
       /\ Forall (fun r => (penalizedScore profile r <= penalizedScore profile best)%Q) post.
Proof.
  assert (E : findOptimalModelForUseCase results profile
              = fst (fold_left (keepBest Model (penalizedScore profile)) results ("", 0%Q))).
  { destruct results; reflexivity. }
  destruct (keepBest_fold Model (penalizedScore profile) results "" 0%Q)
    as [[Hall Hf] | (pre & x & post & Hl & Hf & Hs & Hpre & Hpost)].
  - left. split; [exact Hall | rewrite E, Hf; reflexivity].
  - right. exists pre, x, post. rewrite E, Hf. auto.
Qed.

(** C5, as the code has it: the winner of a use case is the first result,
    in the order the benchmark produced them, whose penalized score is
    positive and the greatest; results that reach the same score later in
    the list do not replace it, whatever their response time or the
    failures of their model. *)
Theorem findOptimal_first_maximum (profile : HardwareProfile)
    (pre post : list BenchmarkResult) (best : BenchmarkResult) :
  (0 < penalizedScore profile best)%Q ->
  Forall (fun r => (penalizedScore profile r < penalizedScore profile best)%Q) pre ->
  Forall (fun r => (penalizedScore profile r <= penalizedScore profile best)%Q) post ->
  findOptimalModelForUseCase (pre ++ best :: post) profile = Model best.
Proof.
  intros Hpos Hpre Hpost.
  assert (E : findOptimalModelForUseCase (pre ++ best :: post) profile
              = fst (fold_left (considerResult profile) (pre ++ best :: post) ("", 0%Q))).
  { destruct pre; reflexivity. }
  rewrite E, considerResult_keepBest.
  rewrite (keepBest_first Model (penalizedScore profile) pre post best "" 0%Q Hpos Hpre Hpost).
  reflexivity.
Qed.

Lemma findOptimal_first_maximum_witness :
  (0 < penalizedScore workstation slowTieResult)%Q
  /\ Forall (fun r => (penalizedScore workstation r
                        < penalizedScore workstation slowTieResult)%Q) []
  /\ Forall (fun r => (penalizedScore workstation r
                        <= penalizedScore workstation slowTieResult)%Q) [fastTieResult]
  /\ findOptimalModelForUseCase ([] ++ slowTieResult :: [fastTieResult]) workstation
     = Model slowTieResult.
Proof.
  assert (Hpos : (0 < penalizedScore workstation slowTieResult)%Q) by reflexivity.
  assert (Hpre : Forall (fun r => (penalizedScore workstation r
                           < penalizedScore workstation slowTieResult)%Q) [])
    by constructor.
  assert (Hpost : Forall (fun r => (penalizedScore workstation r
                            <= penalizedScore workstation slowTieResult)%Q) [fastTieResult]).
  { repeat constructor. vm_compute. discriminate. }
  split; [exact Hpos|]. split; [exact Hpre|]. split; [exact Hpost|].
  exact (findOptimal_first_maximum workstation [] [fastTieResult] slowTieResult
           Hpos Hpre Hpost).
Defined.

(** C5 fails as stated: two models tie on the summary scenario with the
    same score and no failed run; the one with the lower response time
    comes second in the list and loses. *)
Lemma tie_not_broken_by_response_time :
  tieResults = [slowTieResult; fastTieResult]
  /\ Success slowTieResult = true /\ Success fastTieResult = true
  /\ (penalizedScore workstation slowTieResult
      == penalizedScore workstation fastTieResult)%Q
  /\ ResponseTime fastTieResult < ResponseTime slowTieResult
  /\ Model slowTieResult = "llama2:7b" /\ Model fastTieResult = "mistral:latest"
  /\ findOptimalModelForUseCase tieResults workstation = "llama2:7b"
  /\ OptimalModels (generateLowSpecSummary tieResults workstation)
       !! "memory-efficient summary" = Some "llama2:7b".
Proof.
  split; [reflexivity|]. vm_compute. repeat split; congruence.
Qed.

(** Successful results are filed under their key in arrival order. *)
Lemma group_lookup (results : list BenchmarkResult)
    (groups : gmap string (list BenchmarkResult)) (k : string) :
  default [] (fold_left groupResult results groups !! k)
  = default [] (groups !! k)
    ++ List.filter (fun r => Success r && String.eqb (groupKey r) k) results.
Proof.
  revert groups. induction results as [|r results IH]; intros groups.
  - simpl. rewrite app_nil_r. reflexivity.
  - cbn [fold_left List.filter]. rewrite IH. unfold groupResult.
    destruct (Success r); cbn [andb]; [|reflexivity].
    destruct (String.eqb (groupKey r) k) eqn:E.
    + apply String.eqb_eq in E. rewrite E, lookup_insert_eq. simpl.
      rewrite <- app_assoc. reflexivity.
    + apply String.eqb_neq in E. rewrite lookup_insert_ne by exact E. reflexivity.
Qed.

Lemma optimal_lookup (results : list BenchmarkResult) (profile : HardwareProfile) (k : string) :
  OptimalModels (generateLowSpecSummary results profile) !! k
  = pickOptimal profile
      (List.filter (fun r => Success r && String.eqb (groupKey r) k) results).
Proof.
  unfold generateLowSpecSummary. cbn [OptimalModels]. rewrite lookup_omap.
  pose proof (group_lookup results ∅ k) as G. rewrite lookup_empty in G. simpl in G.
  rewrite <- G.
  destruct (fold_left groupResult results ∅ !! k); reflexivity.
Qed.

Lemma in_group (results : list BenchmarkResult) (k : string) (r : BenchmarkResult) :
  In r (List.filter (fun r => Success r && String.eqb (groupKey r) k) results)
  <-> In r results /\ Success r = true /\ groupKey r = k.
Proof.
  rewrite List.filter_In, andb_true_iff, String.eqb_eq. tauto.
Qed.

(** The sibling of [findBestModel]: the low-spec ranking only ever picks a
    model that has a successful run under that key, so a model that fails
    every invocation wins nothing. *)
Lemma winner_has_successful_run (results : list BenchmarkResult)
    (profile : HardwareProfile) (k m : string) :
  OptimalModels (generateLowSpecSummary results profile) !! k = Some m ->
  exists r, In r results /\ Success r = true /\ groupKey r = k /\ Model r = m.
Proof.
  rewrite optimal_lookup. unfold pickOptimal.
  set (group := List.filter _ results).
  destruct (findOptimal_cases group profile)
    as [[_ E] | (pre & best & post & Hg & E & _)]; rewrite E.
  - discriminate.
  - destruct (String.eqb (Model best) ""); [discriminate|]. intros [= <-].
    assert (Hin : In best group) by (rewrite Hg; apply in_elt).
    apply in_group in Hin as (? & ? & ?). eauto.
Qed.

Lemma wholly_failing_model_never_optimal (results : list BenchmarkResult)
    (profile : HardwareProfile) (m : string) :
  (forall r, In r results -> Model r = m -> Success r = false) ->
  forall k, OptimalModels (generateLowSpecSummary results profile) !! k <> Some m.
Proof.
  intros Hfail k Hk.
  apply winner_has_successful_run in Hk as (r & Hin & Hs & _ & Hm).
  rewrite (Hfail r Hin Hm) in Hs. discriminate.
Qed.

(** In the built-in catalog scenario names and use-case tags correspond
    one to one, so grouping by name separates the use cases. *)
Lemma catalog_names_match_tags (s1 s2 : TestScenario) :
  In s1 getLowSpecTestScenarios -> In s2 getLowSpecTestScenarios ->
  (ToLower (Name s1) = ToLower (Name s2) <-> UseCase s1 = UseCase s2).
Proof.
  unfold getLowSpecTestScenarios.
  intros H1 H2. simpl in H1, H2.
  repeat (destruct H1 as [<-|H1]); try contradiction;
    repeat (destruct H2 as [<-|H2]); try contradiction;
    vm_compute; split; congruence.
Qed.

(** C3, as the code has it.  Successful results are grouped by one key per
    result, the lower-cased test-case name; the entry of the best-model
    map under a key is computed from the successful results of that key
    alone, each result competing on its own score; and, when every result
    names its model, the key has an entry exactly when one of these
    results has a positive penalized score. *)
Theorem optimal_models_per_group (results : list BenchmarkResult)
    (profile : HardwareProfile) (k : string) :
  Forall (fun r => Model r <> "") results ->
  let group := List.filter (fun r => Success r && String.eqb (groupKey r) k) results in
  OptimalModels (generateLowSpecSummary results profile) !! k = pickOptimal profile group
  /\ (forall r, In r group <-> In r results /\ Success r = true /\ ToLower (TestCase r) = k)
  /\ (is_Some (OptimalModels (generateLowSpecSummary results profile) !! k)
      <-> Exists (fun r => (0 < penalizedScore profile r)%Q) group).
Proof.
  intros Hnamed group. split; [apply optimal_lookup|].
  split; [intros r; apply in_group|].
  rewrite optimal_lookup. fold group. unfold pickOptimal.
  destruct (findOptimal_cases group profile)
    as [[Hall E] | (pre & best & post & Hg & E & Hpos & _)]; rewrite E.
  - simpl. split; [intros [? ?]; discriminate|].
    intros Hex. apply List.Exists_exists in Hex as (r & Hin & Hr).
    rewrite List.Forall_forall in Hall. specialize (Hall r Hin).
    exfalso. exact (Qlt_not_le _ _ Hr Hall).
  - assert (Hin : In best group) by (rewrite Hg; apply in_elt).
    assert (Hne : Model best <> "").
    { rewrite List.Forall_forall in Hnamed. apply Hnamed.
      apply in_group in Hin. tauto. }
    apply String.eqb_neq in Hne. rewrite Hne. split; [intros _|eauto].
    apply List.Exists_exists. eauto.
Qed.

Lemma optimal_models_per_group_witness :
  Forall (fun r => Model r <> "") [hungryResult; quickResult]
  /\ (is_Some (OptimalModels (generateLowSpecSummary [hungryResult; quickResult] laptop)
                 !! "memory-efficient summary")
      <-> Exists (fun r => (0 < penalizedScore laptop r)%Q)
            (List.filter (fun r => Success r && String.eqb (groupKey r) "memory-efficient summary")
                         [hungryResult; quickResult])).
Proof.
  assert (H : Forall (fun r => Model r <> "") [hungryResult; quickResult]).
  { repeat constructor; vm_compute; discriminate. }
  split; [exact H|].
  apply (optimal_models_per_group [hungryResult; quickResult] laptop "memory-efficient summary" H).
Defined.

(** C3 fails as stated: a successful result of the summary scenario is
    present and the best-model map stays empty, because its penalized
    score is not positive; and when a second result does win, its entry
    is filed under the scenario name, not under the tag "summary". *)
Lemma use_case_present_without_entry :
  Success hungryResult = true
  /\ TestCase hungryResult = Name summaryScenario
  /\ UseCase summaryScenario = "summary"
  /\ (penalizedScore laptop hungryResult == 0)%Q
  /\ OptimalModels (generateLowSpecSummary [hungryResult] laptop) = ∅
  /\ OptimalModels (generateLowSpecSummary [hungryResult; quickResult] laptop) !! "summary" = None
  /\ OptimalModels (generateLowSpecSummary [hungryResult; quickResult] laptop)
       !! "memory-efficient summary" = Some "mistral:latest".
Proof. vm_compute. repeat split; congruence. Qed.

End Ranking.

(** ** Output quality *)

Section Quality.
Import LowSpec Samples.

Lemma expectedLength_pos (useCase : string) : 0 < expectedLength useCase.
Proof.
  unfold expectedLength.
  repeat match goal with |- context [String.eqb ?a ?b] => destruct (String.eqb a b) end; lia.
Qed.

Lemma assessOutputQuality_bands (output useCase : string) :
  let L := len output in
  let E := expectedLength useCase in
  assessOutputQuality output useCase =
    (if 10 * L <? 3 * E then 1.0
     else if 10 * L <? 7 * E then 2.5
     else if 2 * L <=? 3 * E then 4.0
     else if L <=? 2 * E then 3.0
     else 2.0)%Q.
Proof.
  intros L E. pose proof (expectedLength_pos useCase) as HE. fold E in HE.
  unfold assessOutputQuality. fold L E.
  destruct (Qltb _ 0.3) eqn:T1.
  { apply Qltb_true, (ratio_lt L E 3 10 HE) in T1.
    destruct (Z.ltb_spec (10 * L) (3 * E)); [reflexivity | lia]. }
  apply Qltb_false, (ratio_ge L E 3 10 HE) in T1.
  destruct (Z.ltb_spec (10 * L) (3 * E)); [lia|].
  destruct (Qltb _ 0.7) eqn:T2.
  { apply Qltb_true, (ratio_lt L E 7 10 HE) in T2.
    destruct (Z.ltb_spec (10 * L) (7 * E)); [reflexivity | lia]. }
  apply Qltb_false, (ratio_ge L E 7 10 HE) in T2.
  destruct (Z.ltb_spec (10 * L) (7 * E)); [lia|].
  destruct (Qle_bool _ 1.5) eqn:T3.
  { apply Qle_bool_iff, (ratio_le L E 15 10 HE) in T3.
    destruct (Z.leb_spec (2 * L) (3 * E)); [reflexivity | lia]. }
  apply Qle_bool_false, (ratio_gt L E 15 10 HE) in T3.
  destruct (Z.leb_spec (2 * L) (3 * E)); [lia|].
  destruct (Qle_bool _ 2.0) eqn:T4.
  { apply Qle_bool_iff, (ratio_le L E 20 10 HE) in T4.
    destruct (Z.leb_spec L (2 * E)); [reflexivity | lia]. }
  apply Qle_bool_false, (ratio_gt L E 20 10 HE) in T4.
  destruct (Z.leb_spec L (2 * E)); [lia | reflexivity].
Qed.

(** C6, as the code has it: the quality score is the five-band value of
    the ratio of output length to expected length and nothing else; two
    outputs of the same length score the same whatever their structure
    and vocabulary. *)
Theorem assessOutputQuality_length_only (output useCase : string) :
  let L := len output in
  let E := expectedLength useCase in
  assessOutputQuality output useCase =
    (if 10 * L <? 3 * E then 1.0
     else if 10 * L <? 7 * E then 2.5
     else if 2 * L <=? 3 * E then 4.0
     else if L <=? 2 * E then 3.0
     else 2.0)%Q
  /\ forall output', len output' = len output ->
       assessOutputQuality output' useCase = assessOutputQuality output useCase.
Proof.
  intros L E. split; [apply assessOutputQuality_bands|].
  intros output' H. rewrite !assessOutputQuality_bands. cbv zeta. rewrite H. reflexivity.
Qed.

(** C6 fails as stated: an output with a markdown header, a bullet and
    technical vocabulary scores the bare band value, the same as plain
    prose of the same length, for the long-form use case "blog" (no
    boost) and for "social" (no penalty); the tester's integer score is
    not a band value and rewards the markup for "social" too. *)
Lemma quality_ignores_structure_and_vocabulary :
  len structuredBlog = len plainBlog
  /\ Contains structuredBlog "##" = true /\ Contains plainBlog "##" = false
  /\ Contains structuredBlog "- " = true /\ Contains plainBlog "- " = false
  /\ UroboroTester.foundTechnicalTerm structuredBlog = true
  /\ UroboroTester.foundTechnicalTerm plainBlog = false
  /\ assessOutputQuality structuredBlog "blog" = 1.0%Q
  /\ assessOutputQuality plainBlog "blog" = 1.0%Q
  /\ assessOutputQuality structuredBlog "social" = 2.5%Q
  /\ assessOutputQuality plainBlog "social" = 2.5%Q
  /\ UroboroTester.evaluateQuality (answered "social" structuredBlog) (caseFor "social") = 4
  /\ UroboroTester.evaluateQuality (answered "social" plainBlog) (caseFor "social") = 3.
Proof. vm_compute. repeat split; congruence. Qed.

End Quality.

(** ** Best model of the model comparison *)

Section Comparison.
Import ModelComparison Samples.

Lemma single_result_perf (result : ModelResult) :
  finalize <$> fold_left accumulate [result] ∅
  = {[ Model result := finalize (if Success result
                                 then {| successRate := (0 + 1.0)%Q;
                                         avgResponseTime := wrap64 (0 + ResponseTime result);
                                         count := 0 + 1 |}
                                 else {| successRate := 0;
                                         avgResponseTime := 0;
                                         count := 0 + 1 |}) ]}.
Proof.
  cbn [fold_left]. unfold accumulate. rewrite lookup_empty. cbn [default zeroPerf].
  rewrite fmap_insert, fmap_empty, insert_empty.
  destruct (Success result); reflexivity.
Qed.

Lemma single_entry_order (iter : gmap string Perf -> list (string * Perf))
    (k : string) (perf : Perf) :
  visitsEachOnce iter -> iter {[ k := perf ]} = [(k, perf)].
Proof.
  intros H. specialize (H {[ k := perf ]}).
  rewrite map_to_list_singleton in H.
  apply Permutation_length_1_inv. symmetry. exact H.
Qed.

(** C2 on its failing input: the only model tested on a blog prompt fails
    its only invocation, and [findBestModel] still returns it, whatever
    the order in which the map is visited; the summary lists it as the
    best model for "blog". *)
Theorem failing_only_model_is_selected (iter : gmap string Perf -> list (string * Perf)) :
  visitsEachOnce iter ->
  Success failedBlogRun = false
  /\ findBestModelWith iter [failedBlogRun] = "orca-mini:3b"
  /\ BestModel (generateSummaryWith iter [failedBlogRun]) !! "blog" = Some "orca-mini:3b".
Proof.
  intros H.
  assert (E : findBestModelWith iter [failedBlogRun] = "orca-mini:3b").
  { unfold findBestModelWith. rewrite single_result_perf.
    rewrite (single_entry_order iter _ _ H). vm_compute. reflexivity. }
  split; [reflexivity|]. split; [exact E|].
  unfold generateSummaryWith. cbn [BestModel fold_left]. unfold groupBy at 1.
  rewrite lookup_empty, lookup_omap.
  change (inferUseCase (Prompt failedBlogRun)) with "blog".
  rewrite lookup_insert_eq. cbn [mbind option_bind default app].
  unfold pickBest. rewrite E. reflexivity.
Qed.

Lemma failing_only_model_is_selected_witness :
  visitsEachOnce map_to_list
  /\ findBestModel [failedBlogRun] = "orca-mini:3b"
  /\ BestModel (generateSummary [failedBlogRun]) !! "blog" = Some "orca-mini:3b".
Proof.
  assert (H : visitsEachOnce map_to_list) by (intros m; reflexivity).
  split; [exact H|].
  apply (failing_only_model_is_selected map_to_list H).
Defined.

End Comparison.

(** ** Recommended configuration *)

Section Configuration.
Import Samples.

(** C7 on the low-spec recommender: whatever the results and the host,
    the recommended configuration carries an empty fallback model; the
    field is never filled in. *)
Theorem low_spec_config_has_no_fallback (results : list LowSpec.BenchmarkResult)
    (profile : LowSpec.HardwareProfile) :
  LowSpec.FallbackModel (LowSpec.generateRecommendedConfig results profile) = ""
  /\ LowSpec.FallbackModel
       (LowSpec.SummaryConfig (LowSpec.generateLowSpecSummary results profile)) = ""
  /\ LowSpec.FallbackModel (LowSpec.generateRecommendedConfig [] laptop) = "".
Proof. repeat split. Qed.

(** The sibling recommender of the uroboro tester does carry the fixed
    chain, whatever the ranking found. *)
Lemma uroboro_config_fallback_chain (bestModelPerUseCase : gmap string string) :
  UroboroTester.FallbackChain (UroboroTester.generateConfigRecommendation bestModelPerUseCase)
  = ["mistral:latest"; "llama2:7b"; "orca-mini:3b"].
Proof. reflexivity. Qed.

End Configuration.

(** ** The numeric code on binary64 numbers *)

Section OnBinary64.
Import Samples.

(** On the sample ratios of the specification and on both boundaries the
    binary64 classifier and the exact one agree. *)
Example binary64_oom_risk_agrees :
  Forall (fun '(memoryUsed, availableRAM) =>
            Binary64.assessOOMRisk memoryUsed availableRAM
            = LowSpec.assessOOMRisk memoryUsed availableRAM)
         [(3, 10); (6, 10); (9, 10); (3600, 4096); (1, 2); (4, 5);
          (2047, 4096); (2048, 4096); (3276, 4096); (3277, 4096);
          (-3000, 4096); (100, 0)].
Proof. repeat constructor. Qed.

(** Around every band limit both versions of the quality score give the
    same band. *)
Example binary64_quality_agrees :
  List.map (fun n => Binary64.assessOutputQuality (filler n) "capture") captureLengths
  = [1.0; 1.0; 2.5; 2.5; 4.0; 4.0; 3.0; 3.0; 2.0]%float
  /\ List.map (fun n => LowSpec.assessOutputQuality (filler n) "capture") captureLengths
     = [1.0; 1.0; 2.5; 2.5; 4.0; 4.0; 3.0; 3.0; 2.0]%Q.
Proof. split; vm_compute; reflexivity. Qed.

(** The scores of the sample runs are the same doubles: 1.0 for the 45 s
    answer of quality 1.0 (so that the battery penalty leaves exactly 0),
    and 1.75 for both answers of the tie. *)
Example binary64_usability_samples :
  Binary64.calculateUsabilityScore (45 * Second) 1.0 "memory" = 1.0%float
  /\ (Binary64.calculateUsabilityScore (45 * Second) 1.0 "memory" - 1.0)%float = 0%float
  /\ Binary64.calculateUsabilityScore (50 * Second) 2.5 "memory" = 1.75%float
  /\ Binary64.calculateUsabilityScore (45 * Second) 2.5 "memory" = 1.75%float.
Proof. vm_compute. repeat split; reflexivity. Qed.

End OnBinary64.

(** * Further properties of the low-spec benchmark *)

Section BenchmarkMatrix.
Import LowSpec Samples.

Lemma lookup_flat_map_rows {A B : Type} (f : A -> list B) (n : nat) (l : list A)
    (i j : nat) (a : A) :
  (forall x, length (f x) = n) ->
  l !! i = Some a -> (j < n)%nat ->
  flat_map f l !! (i * n + j)%nat = f a !! j.
Proof.
  intros Hn. revert i. induction l as [|x l IH]; intros i Hi Hj; [discriminate|].
  cbn [flat_map]. destruct i as [|i].
  - injection Hi as ->. rewrite lookup_app_l by (rewrite Hn; lia). reflexivity.
  - rewrite lookup_app_r by (rewrite Hn; lia).
    rewrite Hn. replace (S i * n + j - n)%nat with (i * n + j)%nat by lia.
    apply IH; assumption.
Qed.

Lemma length_flat_map_rows {A B : Type} (f : A -> list B) (n : nat) (l : list A) :
  (forall x, length (f x) = n) -> length (flat_map f l) = (length l * n)%nat.
Proof.
  intros Hn. induction l as [|x l IH]; [reflexivity|].
  cbn [flat_map length]. rewrite length_app, Hn, IH. lia.
Qed.

Lemma benchmark_length (goos : string) (world : string -> TestScenario -> ProcRun)
    (models : list string) (scenarios : list TestScenario) (profile : HardwareProfile) :
  length (runLowSpecBenchmarks goos world models scenarios profile)
  = (length models * length scenarios)%nat.
Proof.
  unfold runLowSpecBenchmarks. apply length_flat_map_rows.
  intros x. apply length_map.
Qed.

(** X1. The benchmark runs every model against every scenario, models in
    the outer loop: there are |models| x |scenarios| results, failed ones
    included, and the result at position i * |scenarios| + j is the one of
    model i on scenario j. *)
Theorem runLowSpecBenchmarks_matrix (goos : string) (world : string -> TestScenario -> ProcRun)
    (models : list string) (scenarios : list TestScenario) (profile : HardwareProfile)
    (i j : nat) (model : string) (scenario : TestScenario) :
  models !! i = Some model -> scenarios !! j = Some scenario ->
  length (runLowSpecBenchmarks goos world models scenarios profile)
    = (length models * length scenarios)%nat
  /\ runLowSpecBenchmarks goos world models scenarios profile
       !! (i * length scenarios + j)%nat
     = Some (runLowSpecTest goos model scenario profile (world model scenario))
  /\ Model (runLowSpecTest goos model scenario profile (world model scenario)) = model
  /\ TestCase (runLowSpecTest goos model scenario profile (world model scenario))
     = Name scenario.
Proof.
  intros Hi Hj. unfold runLowSpecBenchmarks.
  set (row := fun model => List.map _ scenarios).
  assert (Hrow : forall x, length (row x) = length scenarios)
    by (intros x; apply length_map).
  split; [apply (length_flat_map_rows row), Hrow|]. split.
  - rewrite (lookup_flat_map_rows row (length scenarios) models i j model Hrow Hi).
    + unfold row. rewrite list_lookup_fmap, Hj. reflexivity.
    + apply lookup_lt_Some in Hj. exact Hj.
  - unfold runLowSpecTest. destruct (outcome _); split; reflexivity.
Qed.

Lemma runLowSpecBenchmarks_matrix_witness :
  ["llama2:7b"; "mistral:latest"] !! 1%nat = Some "mistral:latest"
  /\ [summaryScenario] !! 0%nat = Some summaryScenario
  /\ tieResults !! 1%nat = Some fastTieResult.
Proof.
  split; [reflexivity|]. split; [reflexivity|].
  apply (runLowSpecBenchmarks_matrix "linux" tieWorld ["llama2:7b"; "mistral:latest"]
           [summaryScenario] workstation 1 0 "mistral:latest" summaryScenario);
    reflexivity.
Defined.

End BenchmarkMatrix.

Section TrimmedOutput.
Import LowSpec Samples.





Lemma trimLeft_length (s : string) : (String.length (trimLeft s) <= String.length s)%nat.
Proof.
  induction s as [|c s IH]; [reflexivity|].
  cbn [trimLeft]. destruct (isSpace c); simpl; lia.
Qed.








End TrimmedOutput.

(** Linear arithmetic on [Q] after division by a constant is turned into
    multiplication. *)
Ltac qlra := unfold Qdiv in *; cbn [Qinv Qnum Qden] in *; lra.

Section ScoreRange.
Import LowSpec Samples.

Lemma Seconds_le (d1 d2 : Z) : d1 <= d2 -> (Seconds d1 <= Seconds d2)%Q.
Proof.
  intros H. unfold Seconds, Second.
  apply Qmult_le_compat_r; [|discriminate].
  rewrite <- Zle_Qle. exact H.
Qed.

Lemma Seconds_nonneg (d : Z) : 0 <= d -> (0 <= Seconds d)%Q.
Proof.
  intros H. apply Seconds_le in H.
  assert (E : (Seconds 0 == 0)%Q) by reflexivity.
  rewrite E in H. exact H.
Qed.

Lemma timeScore_bounds (responseTime : Z) :
  0 <= responseTime -> (1 <= timeScore responseTime <= 5)%Q.
Proof.
  intros H. apply Seconds_nonneg in H. unfold timeScore.
  generalize dependent (Seconds responseTime). intros s H.
  destruct (Qltb _ 1.0) eqn:L.
  - split; discriminate.
  - apply Qltb_false in L. split; qlra.
Qed.

Lemma timeScore_antitone (r1 r2 : Z) :
  r1 <= r2 -> (timeScore r2 <= timeScore r1)%Q.
Proof.
  intros H. apply Seconds_le in H. unfold timeScore.
  generalize dependent (Seconds r2). generalize dependent (Seconds r1). intros s1 s2 H.
  destruct (Qltb (5.0 - s2 / 10.0) 1.0) eqn:L2;
    destruct (Qltb (5.0 - s1 / 10.0) 1.0) eqn:L1;
    try apply Qltb_true in L1; try apply Qltb_true in L2;
    try apply Qltb_false in L1; try apply Qltb_false in L2; qlra.
Qed.

Lemma timeScore_saturated (responseTime : Z) :
  40 * Second <= responseTime -> (timeScore responseTime == 1)%Q.
Proof.
  intros H. apply Seconds_le in H.
  assert (E : (Seconds (40 * Second) == 40)%Q) by reflexivity.
  rewrite E in H. unfold timeScore.
  generalize dependent (Seconds responseTime). intros s H.
  destruct (Qltb _ 1.0) eqn:L; [reflexivity|].
  apply Qltb_false in L. qlra.
Qed.

Lemma quality_values (output useCase : string) :
  In (assessOutputQuality output useCase) [1.0; 2.5; 4.0; 3.0; 2.0]%Q.
Proof.
  rewrite assessOutputQuality_bands. cbv zeta.
  repeat match goal with
         | |- context [if ?b then _ else _] => destruct b
         end; simpl; tauto.
Qed.

Lemma quality_bounds (output useCase : string) :
  (1 <= assessOutputQuality output useCase <= 4)%Q.
Proof.
  pose proof (quality_values output useCase) as H. simpl in H.
  destruct H as [<-|[<-|[<-|[<-|[<-|[]]]]]]; split; discriminate.
Qed.

Lemma usability_bounds (responseTime : Z) (q : Q) (priority : string) :
  0 <= responseTime -> (1 <= q <= 4)%Q ->
  (1 <= calculateUsabilityScore responseTime q priority <= 4.7)%Q.
Proof.
  intros Hr Hq. pose proof (timeScore_bounds responseTime Hr) as Ht.
  unfold calculateUsabilityScore.
  generalize dependent (timeScore responseTime). intros t Ht.
  repeat match goal with
         | |- context [if ?b then _ else _] => destruct b
         end; qlra.
Qed.

(** X3. For every successful invocation that took a non-negative time,
    the quality score is one of 1.0, 2.5, 4.0, 3.0 and 2.0 and the
    usability score lies between 1 and 4.7. *)
Theorem successful_scores_in_range (goos model : string) (scenario : TestScenario)
    (profile : HardwareProfile) (run : ProcRun) :
  let result := runLowSpecTest goos model scenario profile run in
  Success result = true -> 0 <= elapsed run ->
  In (QualityScore result) [1.0; 2.5; 4.0; 3.0; 2.0]%Q
  /\ (1 <= UsabilityScore result <= 4.7)%Q.
Proof.
  unfold runLowSpecTest. destruct (outcome run) as [err|stdout]; cbn;
    intros HS Hr; [discriminate|].
  split; [apply quality_values|].
  apply usability_bounds; [exact Hr | apply quality_bounds].
Qed.

Lemma successful_scores_in_range_witness :
  Success quickResult = true /\ 0 <= elapsed quickRun
  /\ In (QualityScore quickResult) [1.0; 2.5; 4.0; 3.0; 2.0]%Q
  /\ (1 <= UsabilityScore quickResult <= 4.7)%Q.
Proof.
  split; [reflexivity|]. split; [discriminate|].
  apply (successful_scores_in_range "linux" "mistral:latest" summaryScenario laptop quickRun);
    [reflexivity | discriminate].
Defined.

(** X4. The usability score never rises when the response gets slower,
    and from 40 s on the response time no longer matters: every slower
    answer of the same quality gets the score of a 40 s answer. *)
Theorem usability_antitone_and_saturated (r1 r2 : Z) (q : Q) (priority : string) :
  r1 <= r2 ->
  (calculateUsabilityScore r2 q priority <= calculateUsabilityScore r1 q priority)%Q
  /\ (40 * Second <= r1 ->
      (calculateUsabilityScore r2 q priority == calculateUsabilityScore r1 q priority)%Q).
Proof.
  intros H. pose proof (timeScore_antitone r1 r2 H) as Ht. split.
  - unfold calculateUsabilityScore.
    generalize dependent (timeScore r2). generalize dependent (timeScore r1).
    intros t1 t2 Ht.
    repeat match goal with
           | |- context [if ?b then _ else _] => destruct b
           end; qlra.
  - intros H40.
    pose proof (timeScore_saturated r1 H40) as E1.
    assert (E2 : (timeScore r2 == 1)%Q) by (apply timeScore_saturated; lia).
    unfold calculateUsabilityScore.
    repeat match goal with
           | |- context [if ?b then _ else _] => destruct b
           end; rewrite E1, E2; reflexivity.
Qed.

Lemma usability_antitone_and_saturated_witness :
  45 * Second <= 50 * Second
  /\ (calculateUsabilityScore (50 * Second) 2.5 "memory"
      <= calculateUsabilityScore (45 * Second) 2.5 "memory")%Q.
Proof.
  assert (H : 45 * Second <= 50 * Second) by discriminate.
  split; [exact H|].
  apply (usability_antitone_and_saturated (45 * Second) (50 * Second) 2.5 "memory" H).
Defined.

End ScoreRange.

Section ModelNames.
Import LowSpec Samples.

Lemma app_snoc (pre : string) (c : ascii) (rest : string) :
  (pre +:+ String c "") +:+ rest = pre +:+ String c rest.
Proof.
  induction pre as [|d pre IH]; [reflexivity|].
  change ((String d pre +:+ String c "") +:+ rest)
    with (String d ((pre +:+ String c "") +:+ rest)).
  rewrite IH. reflexivity.
Qed.

Lemma Contains_drop_first (s : string) (c : ascii) (sub : string) :
  Contains s (String c sub) = true -> Contains s sub = true.
Proof.
  rewrite !Contains_spec. intros (pre & post & ->).
  exists (pre +:+ String c ""), post. rewrite app_snoc. reflexivity.
Qed.

(** X5. [inferModelSize] never answers "13b": a name that contains "13b"
    or "33b" already contains "3b", the first pattern tried, so a 13b
    model is recorded with size "3b"; the answers are "3b", "7b", "30b+"
    and "unknown". *)
Theorem inferModelSize_never_13b (model : string) :
  inferModelSize model <> "13b"
  /\ In (inferModelSize model) ["3b"; "7b"; "30b+"; "unknown"]
  /\ (Contains (ToLower model) "13b" = true \/ Contains (ToLower model) "33b" = true ->
      inferModelSize model = "3b").
Proof.
  unfold inferModelSize. cbv zeta.
  destruct (Contains (ToLower model) "3b") eqn:E3.
  - split; [discriminate|]. split; [simpl; tauto | reflexivity].
  - assert (E13 : Contains (ToLower model) "13b" = false).
    { destruct (Contains (ToLower model) "13b") eqn:E; [|reflexivity].
      apply Contains_drop_first in E. congruence. }
    assert (E33 : Contains (ToLower model) "33b" = false).
    { destruct (Contains (ToLower model) "33b") eqn:E; [|reflexivity].
      apply Contains_drop_first in E. congruence. }
    rewrite E13, E33, orb_false_r.
    destruct (Contains (ToLower model) "7b"); [|destruct (Contains (ToLower model) "30b")];
      (split; [discriminate|]); (split; [simpl; tauto|]); intros [C|C]; discriminate.
Qed.

Lemma inferModelSize_never_13b_witness :
  (Contains (ToLower "llama2:13b") "13b" = true \/ Contains (ToLower "llama2:13b") "33b" = true)
  /\ inferModelSize "llama2:13b" = "3b".
Proof.
  assert (H : Contains (ToLower "llama2:13b") "13b" = true
              \/ Contains (ToLower "llama2:13b") "33b" = true) by (left; reflexivity).
  split; [exact H|].
  apply (inferModelSize_never_13b "llama2:13b"). exact H.
Defined.

Lemma rev_app_length (s1 s2 : string) :
  String.length (String.rev_app s1 s2) = (String.length s1 + String.length s2)%nat.
Proof.
  revert s2. induction s1 as [|c s1 IH]; intros s2; cbn [String.rev_app].
  - reflexivity.
  - rewrite IH. simpl. lia.
Qed.

Lemma hasSpace_rev_app (s1 s2 : string) :
  hasSpace (String.rev_app s1 s2) = hasSpace s1 || hasSpace s2.
Proof.
  revert s2. induction s1 as [|c s1 IH]; intros s2; cbn [String.rev_app hasSpace].
  - reflexivity.
  - rewrite IH. cbn [hasSpace].
    destruct (isSpace c), (hasSpace s1), (hasSpace s2); reflexivity.
Qed.

Lemma rev_field (cur : string) :
  cur <> "" -> hasSpace cur = false ->
  String.rev cur <> "" /\ hasSpace (String.rev cur) = false.
Proof.
  intros Hne Hsp. unfold String.rev. split.
  - intros E. apply (f_equal String.length) in E.
    rewrite rev_app_length in E. destruct cur; [congruence | simpl in E; lia].
  - rewrite hasSpace_rev_app, Hsp. reflexivity.
Qed.

(** Every field is a non-empty run of bytes without white space. *)
Lemma fields_elements (s cur x : string) :
  hasSpace cur = false -> In x (fields cur s) -> x <> "" /\ hasSpace x = false.
Proof.
  revert cur. induction s as [|c s IH]; intros cur Hcur; cbn [fields].
  - destruct cur as [|d cur]; [intros []|].
    intros [<-|[]]. apply rev_field; [discriminate | exact Hcur].
  - destruct (isSpace c) eqn:Hc.
    + destruct cur as [|d cur]; [apply IH; reflexivity|].
      intros [<-|H]; [apply rev_field; [discriminate | exact Hcur]|].
      exact (IH "" eq_refl H).
    + apply IH. cbn [hasSpace]. rewrite Hc, Hcur. reflexivity.
Qed.

Lemma splitLines_no_newline (cur s : string) :
  Contains s nl = false -> splitLines cur s = [String.rev (String.rev_app s cur)].
Proof.
  revert cur. induction s as [|c s IH]; intros cur H; cbn [splitLines].
  - reflexivity.
  - destruct (Ascii.eqb c "010") eqn:Hc.
    + apply Ascii.eqb_eq in Hc as ->. exfalso.
      unfold nl in H. cbn [Contains HasPrefix] in H.
      rewrite Ascii.eqb_refl in H. destruct s; discriminate.
    + cbn [String.rev_app]. apply IH.
      change (Contains (String c s) nl)
        with (HasPrefix (String c s) nl || Contains s nl) in H.
      apply orb_false_iff in H as [_ H]. exact H.
Qed.

Lemma discovered_fields (listing : option string) :
  Forall (fun name => name <> "" /\ hasSpace name = false) (getAvailableModels listing).
Proof.
  destruct listing as [output|]; [|constructor].
  unfold getAvailableModels. rewrite scan_lines_filter.
  apply List.Forall_forall. intros name H.
  apply List.filter_In in H as [H _]. apply in_flat_map in H as (line & _ & H).
  unfold Fields in H. destruct (fields "" line) as [|f rest] eqn:E; [destruct H|].
  destruct H as [<-|[]].
  apply (fields_elements line "" f eq_refl). rewrite E. left. reflexivity.
Qed.

(** X6. The names returned by model discovery are fields of the listing:
    none is empty and none contains white space.  When the command fails,
    or when the listing holds nothing but its header line, no model is
    returned. *)
Theorem discovered_names_are_fields (listing : option string) :
  Forall (fun name => name <> "" /\ hasSpace name = false) (getAvailableModels listing)
  /\ getAvailableModels None = []
  /\ (forall header, Contains header nl = false -> getAvailableModels (Some header) = []).
Proof.
  split; [apply discovered_fields|]. split; [reflexivity|].
  intros header H. unfold getAvailableModels, SplitLines.
  rewrite (splitLines_no_newline "" header H). reflexivity.
Qed.

End ModelNames.

Section Winners.
Import LowSpec Samples.

Lemma considerPrimary_fold (results : list BenchmarkResult) (best : string * Q) :
  fold_left considerPrimary results best
  = fold_left (keepBest Model UsabilityScore) (List.filter Success results) best.
Proof.
  revert best. induction results as [|r results IH]; intros best; [reflexivity|].
  cbn [fold_left List.filter]. unfold considerPrimary at 2.
  destruct (Success r); cbn [andb fold_left]; rewrite IH; reflexivity.
Qed.

Lemma primary_model_source (results : list BenchmarkResult) (profile : HardwareProfile) :
  PrimaryModel (generateRecommendedConfig results profile) = ""
  \/ exists best, In best results /\ Success best = true
                  /\ PrimaryModel (generateRecommendedConfig results profile) = Model best.
Proof.
  unfold generateRecommendedConfig. cbn [PrimaryModel]. rewrite considerPrimary_fold.
  destruct (keepBest_fold Model UsabilityScore (List.filter Success results) "" 0%Q)
    as [[_ ->] | (pre & best & post & Hl & -> & _)]; [left; reflexivity|].
  right. exists best.
  assert (Hin : In best (List.filter Success results)) by (rewrite Hl; apply in_elt).
  apply List.filter_In in Hin as [Hin HS]. auto.
Qed.


(** X8. Every entry of the best-model map is earned: the model recorded
    under a key is the model of a successful result of that key whose
    penalized score is positive and not exceeded by any successful result
    of the key. *)
Theorem optimal_model_is_best (results : list BenchmarkResult) (profile : HardwareProfile)
    (k m : string) :
  OptimalModels (generateLowSpecSummary results profile) !! k = Some m ->
  exists best,
    In best results /\ Success best = true /\ groupKey best = k /\ Model best = m
    /\ (0 < penalizedScore profile best)%Q
    /\ forall r, In r results -> Success r = true -> groupKey r = k ->
                 (penalizedScore profile r <= penalizedScore profile best)%Q.
Proof.
  rewrite optimal_lookup. unfold pickOptimal.
  set (group := List.filter _ results).
  destruct (findOptimal_cases group profile)
    as [[_ E] | (pre & best & post & Hg & E & Hpos & Hpre & Hpost)]; rewrite E.
  - discriminate.
  - destruct (String.eqb (Model best) ""); [discriminate|]. intros [= <-].
    assert (Hin : In best group) by (rewrite Hg; apply in_elt).
    apply in_group in Hin as (Hin & HS & Hk).
    exists best. repeat split; auto. intros r Hr HSr Hkr.
    assert (Hf : In r group) by (apply in_group; auto).
    rewrite Hg in Hf. apply in_app_or in Hf as [Hf|[<-|Hf]].
    + rewrite List.Forall_forall in Hpre. apply Qlt_le_weak, Hpre, Hf.
    + apply Qle_refl.
    + rewrite List.Forall_forall in Hpost. apply Hpost, Hf.
Qed.

Lemma optimal_model_is_best_witness :
  OptimalModels (generateLowSpecSummary [hungryResult; quickResult] laptop)
    !! "memory-efficient summary" = Some "mistral:latest"
  /\ exists best,
       In best [hungryResult; quickResult] /\ Success best = true
       /\ groupKey best = "memory-efficient summary" /\ Model best = "mistral:latest"
       /\ (0 < penalizedScore laptop best)%Q
       /\ forall r, In r [hungryResult; quickResult] -> Success r = true ->
                    groupKey r = "memory-efficient summary" ->
                    (penalizedScore laptop r <= penalizedScore laptop best)%Q.
Proof.
  assert (H : OptimalModels (generateLowSpecSummary [hungryResult; quickResult] laptop)
                !! "memory-efficient summary" = Some "mistral:latest")
    by (vm_compute; reflexivity).
  split; [exact H|].
  exact (optimal_model_is_best [hungryResult; quickResult] laptop
           "memory-efficient summary" "mistral:latest" H).
Defined.

(** X9. The whole run: it stops before any benchmark exactly when model
    discovery returns nothing (for instance when [ollama list] fails);
    otherwise there are five results per discovered model, each naming a
    discovered, non-empty model, and the primary model recommended is one
    of the discovered models unless no invocation earned a positive
    score. *)
Theorem benchmarkDevice_outcome (goos : string) (listing : option string)
    (world : string -> TestScenario -> ProcRun) (profile : HardwareProfile) :
  (benchmarkDevice goos listing world profile = None <-> getAvailableModels listing = [])
  /\ benchmarkDevice goos None world profile = None
  /\ forall results summary,
       benchmarkDevice goos listing world profile = Some (results, summary) ->
       length results = (length (getAvailableModels listing) * 5)%nat
       /\ Forall (fun r => In (Model r) (getAvailableModels listing) /\ Model r <> "") results
       /\ summary = generateLowSpecSummary results profile
       /\ (PrimaryModel (SummaryConfig summary) = ""
           \/ In (PrimaryModel (SummaryConfig summary)) (getAvailableModels listing)).
Proof.
  unfold benchmarkDevice. split; [|split; [reflexivity|]].
  - destruct (getAvailableModels listing); split; congruence.
  - intros results summary.
    pose proof (discovered_fields listing) as Hnames.
    pose proof (benchmark_length goos world (getAvailableModels listing)
                  getLowSpecTestScenarios profile) as Hlen.
    pose proof (fun r => benchmarked_models goos world (getAvailableModels listing)
                           getLowSpecTestScenarios profile r) as Hmodels.
    pose proof (primary_model_source
                  (runLowSpecBenchmarks goos world (getAvailableModels listing)
                     getLowSpecTestScenarios profile) profile) as Hprimary.
    cbv zeta.
    set (rs := runLowSpecBenchmarks goos world (getAvailableModels listing)
                 getLowSpecTestScenarios profile) in *.
    clearbody rs.
    destruct (getAvailableModels listing) as [|m models]; [discriminate|].
    intros H. injection H as <- <-.
    split; [exact Hlen|]. split; [|split; [reflexivity|]].
    + apply List.Forall_forall. intros r Hr. specialize (Hmodels r Hr).
      split; [exact Hmodels|].
      rewrite List.Forall_forall in Hnames. apply (Hnames _ Hmodels).
    + cbn [SummaryConfig generateLowSpecSummary].
      destruct Hprimary as [-> | (best & Hin & _ & ->)].
      * left. reflexivity.
      * right. apply Hmodels, Hin.
Qed.

Lemma benchmarkDevice_outcome_witness :
  exists results summary,
    benchmarkDevice "linux" sampleListing tieWorld workstation = Some (results, summary)
    /\ length results = (length (getAvailableModels sampleListing) * 5)%nat
    /\ getAvailableModels sampleListing = ["llama2:7b"; "mistral:latest"]
    /\ (PrimaryModel (SummaryConfig summary) = ""
        \/ In (PrimaryModel (SummaryConfig summary)) (getAvailableModels sampleListing)).
Proof.
  set (results := runLowSpecBenchmarks "linux" tieWorld (getAvailableModels sampleListing)
                    getLowSpecTestScenarios workstation).
  exists results, (generateLowSpecSummary results workstation).
  assert (H : benchmarkDevice "linux" sampleListing tieWorld workstation
              = Some (results, generateLowSpecSummary results workstation))
    by reflexivity.
  destruct (proj2 (proj2 (benchmarkDevice_outcome "linux" sampleListing tieWorld workstation))
              _ _ H) as (Hlen & _ & _ & Hp).
  split; [exact H|]. split; [exact Hlen|]. split; [reflexivity | exact Hp].
Defined.

End Winners.

Section HostProfile.
Import LowSpec Samples.

(** X10. The host classes: the thermal profile is one of mobile, laptop,
    desktop and server; the host counts as battery powered exactly when
    it has at most 4 cores and at most 8192 MB of RAM, and exactly then
    the recommended environment switches flash attention on; a host whose
    name cannot be read is called "unknown". *)
Theorem profileHardware_classes (hostname : option string) (goos goarch : string)
    (numCPU : Z) (memory : Z * Z) (storage : string) (results : list BenchmarkResult) :
  let profile := profileHardware hostname goos goarch numCPU memory storage in
  In (ThermalProfile profile) ["mobile"; "laptop"; "desktop"; "server"]
  /\ (ThermalProfile profile = "server" <-> 8 < numCPU \/ 16384 < fst memory)
  /\ (PowerProfile profile = "battery" <-> numCPU <= 4 /\ fst memory <= 8192)
  /\ (PowerProfile profile = "plugged" <-> ~ (numCPU <= 4 /\ fst memory <= 8192))
  /\ (EnvironmentVars (generateRecommendedConfig results profile) !! "OLLAMA_FLASH_ATTENTION"
      = if decide (numCPU <= 4 /\ fst memory <= 8192) then Some "1" else None)
  /\ DeviceName (profileHardware None goos goarch numCPU memory storage) = "unknown".
Proof.
  cbv zeta.
  unfold generateRecommendedConfig, profileHardware, inferPowerProfile, inferThermalProfile.
  cbn [ThermalProfile PowerProfile CPUCores TotalRAM EnvironmentVars DeviceName
       withThermalProfile withPowerProfile default].
  destruct (Z.leb_spec numCPU 2), (Z.leb_spec (fst memory) 4096),
    (Z.leb_spec numCPU 4), (Z.leb_spec (fst memory) 8192),
    (Z.leb_spec numCPU 8), (Z.leb_spec (fst memory) 16384);
    cbn; try lia;
    (repeat split; try (intros; discriminate); try lia; try tauto; try (intros; lia));
    try (case_decide; [reflexivity + lia | reflexivity + lia]).
Qed.

(** X11. When [/proc/meminfo] cannot be read the host is profiled with 0
    MB of RAM: every invocation gets the risk flag "unknown", the
    low-memory configuration is recommended and the advice is the one for
    devices under 4 GB. *)
Theorem unreadable_meminfo_profile (hostname : option string) (goarch model : string)
    (numCPU : Z) (lsblk : option string) (goos : string) (scenario : TestScenario)
    (run : ProcRun) (results : list BenchmarkResult) :
  let profile := profileLinux hostname goarch numCPU None lsblk in
  TotalRAM profile = 0 /\ AvailableRAM profile = 0
  /\ OOMRisk (runLowSpecTest goos model scenario profile run) = "unknown"
  /\ ContextLength (generateRecommendedConfig results profile) = 2048
  /\ ConcurrentRequests (generateRecommendedConfig results profile) = 1
  /\ MemoryBuffer (generateRecommendedConfig results profile) = 1024
  /\ SwapRecommendation (generateRecommendedConfig results profile) = "Enable 4GB swap file"
  /\ hd "" (generateMemoryRecommendations profile)
     = "Consider using 3B models only for this device".
Proof.
  cbv zeta. split; [reflexivity|]. split; [reflexivity|]. split.
  - unfold runLowSpecTest. destruct (outcome run); cbn [OOMRisk];
      unfold assessOOMRisk; change (AvailableRAM _) with 0;
      rewrite orb_true_r; reflexivity.
  - repeat split.
Qed.

End HostProfile.

Section Flags.
Import LowSpec Samples.

(** Thermal-throttle suspicion only depends on the response time
    through a threshold: an answer slower than 20 s is suspected on every
    host class, one of at most 6 s on none; a slower answer of a suspected
    one is suspected too, and what is suspected on a mobile host is
    suspected on every other class. *)
Theorem assessThermalThrottling_thresholds (responseTime : Z) (thermalProfile : string) :
  (20 * Second < responseTime -> assessThermalThrottling responseTime thermalProfile = true)
  /\ (responseTime <= 6 * Second ->
      assessThermalThrottling responseTime thermalProfile = false)
  /\ (forall slower, responseTime <= slower ->
        assessThermalThrottling responseTime thermalProfile = true ->
        assessThermalThrottling slower thermalProfile = true)
  /\ (assessThermalThrottling responseTime "mobile" = true ->
      assessThermalThrottling responseTime thermalProfile = true).
Proof.
  unfold assessThermalThrottling, Second.
  change (String.eqb "mobile" "mobile") with true. cbv iota.
  destruct (String.eqb thermalProfile "mobile");
    [|destruct (String.eqb thermalProfile "laptop");
      [|destruct (String.eqb thermalProfile "desktop")]];
    repeat split; intros; rewrite ?Z.ltb_lt, ?Z.ltb_ge in *; lia.
Qed.

Lemma assessThermalThrottling_thresholds_witness :
  20 * Second < 45 * Second /\ assessThermalThrottling (45 * Second) "laptop" = true.
Proof.
  assert (H : 20 * Second < 45 * Second) by reflexivity.
  split; [exact H|].
  apply (proj1 (assessThermalThrottling_thresholds (45 * Second) "laptop")). exact H.
Defined.

Lemma battery_impact_value (responseTime memoryUsed : Z) :
  (Seconds responseTime + inject_Z memoryUsed / 1000
   == (responseTime + memoryUsed * 1000000) # 1000000000)%Q.
Proof.
  unfold Seconds, Second, Qeq, Qplus, Qdiv, Qmult, Qinv, inject_Z.
  cbn [Qnum Qden]. lia.
Qed.

(** Battery impact is "n/a" off battery; on battery it is decided by
    response time in nanoseconds plus a million times the memory delta in
    MB: minimal below 5e9, moderate below 15e9, high from there on. *)
Theorem assessBatteryImpact_classes (responseTime memoryUsed : Z) (powerProfile : string) :
  let load := responseTime + memoryUsed * 1000000 in
  (powerProfile <> "battery" ->
   assessBatteryImpact responseTime memoryUsed powerProfile = "n/a")
  /\ (powerProfile = "battery" ->
      (assessBatteryImpact responseTime memoryUsed powerProfile = "minimal"
       <-> load < 5000000000)
      /\ (assessBatteryImpact responseTime memoryUsed powerProfile = "moderate"
          <-> 5000000000 <= load < 15000000000)
      /\ (assessBatteryImpact responseTime memoryUsed powerProfile = "high"
          <-> 15000000000 <= load)).
Proof.
  cbv zeta. unfold assessBatteryImpact. split.
  - intros H. apply String.eqb_neq in H. rewrite H. reflexivity.
  - intros ->. change (String.eqb "battery" "battery") with true. cbn [negb].
    pose proof (battery_impact_value responseTime memoryUsed) as E.
    destruct (Qltb _ 5) eqn:L5.
    + apply Qltb_true in L5. rewrite E in L5. unfold Qlt in L5. cbn [Qnum Qden] in L5.
      repeat split; intros; try discriminate; lia.
    + apply Qltb_false in L5. rewrite E in L5. unfold Qle in L5. cbn [Qnum Qden] in L5.
      destruct (Qltb _ 15) eqn:L15.
      * apply Qltb_true in L15. rewrite E in L15. unfold Qlt in L15.
        cbn [Qnum Qden] in L15. repeat split; intros; try discriminate; lia.
      * apply Qltb_false in L15. rewrite E in L15. unfold Qle in L15.
        cbn [Qnum Qden] in L15. repeat split; intros; try discriminate; lia.
Qed.

Lemma assessBatteryImpact_classes_witness :
  "battery" = "battery"
  /\ (assessBatteryImpact (45 * Second) (-3000) "battery" = "high"
      <-> 15000000000 <= 45 * Second + -3000 * 1000000).
Proof.
  split; [reflexivity|].
  apply (proj2 (assessBatteryImpact_classes (45 * Second) (-3000) "battery") eq_refl).
Defined.

End Flags.

Section MemoryDependent.
Import LowSpec Samples.

Lemma addEfficiency_skips (results : list BenchmarkResult) (acc : Q * Z) :
  Forall (fun r => PeakMemoryMB r <= 0) results ->
  fold_left addEfficiency results acc = acc.
Proof.
  intros H. revert acc. induction H as [|r results Hr _ IH]; intros acc; [reflexivity|].
  cbn [fold_left]. unfold addEfficiency at 2.
  apply Z.ltb_ge in Hr. rewrite Hr, andb_false_r. apply IH.
Qed.

Lemma benchmark_results_forall (P : BenchmarkResult -> Prop) (goos : string)
    (world : string -> TestScenario -> ProcRun) (models : list string)
    (scenarios : list TestScenario) (profile : HardwareProfile) :
  (forall model scenario,
     P (runLowSpecTest goos model scenario profile (world model scenario))) ->
  Forall P (runLowSpecBenchmarks goos world models scenarios profile).
Proof.
  intros H. apply List.Forall_forall. intros r Hr.
  unfold runLowSpecBenchmarks in Hr. apply in_flat_map in Hr as (model & _ & Hr).
  apply List.in_map_iff in Hr as (scenario & <- & _). apply H.
Qed.

(** X12. When no invocation sees the available memory rise (the reading
    after the process is at most the reading before it), which is always
    so off Linux where both readings are 0, every result has a memory
    delta of at most 0 and the risk flag "unknown", and the cost
    efficiency score of the run is 0. *)
Theorem no_memory_rise_no_efficiency (goos : string)
    (world : string -> TestScenario -> ProcRun) (models : list string)
    (scenarios : list TestScenario) (profile : HardwareProfile) :
  (String.eqb goos "linux" = false
   \/ forall model scenario,
        getCurrentMemoryUsage goos (meminfoAfter (world model scenario))
        <= getCurrentMemoryUsage goos (meminfoBefore (world model scenario))) ->
  Forall (fun r => PeakMemoryMB r <= 0 /\ OOMRisk r = "unknown"
                   /\ MemoryEfficiency r = 0%Q)
         (runLowSpecBenchmarks goos world models scenarios profile)
  /\ calculateCostEfficiencyScore (runLowSpecBenchmarks goos world models scenarios profile)
     = 0.0%Q.
Proof.
  intros H.
  assert (Hle : forall model scenario,
            getCurrentMemoryUsage goos (meminfoAfter (world model scenario))
            <= getCurrentMemoryUsage goos (meminfoBefore (world model scenario))).
  { destruct H as [H|H]; [|exact H]. intros model scenario.
    unfold getCurrentMemoryUsage. rewrite H. lia. }
  assert (Hpeak : Forall (fun r => PeakMemoryMB r <= 0)
                    (runLowSpecBenchmarks goos world models scenarios profile)).
  { apply benchmark_results_forall. intros model scenario.
    rewrite peak_memory_is_after_minus_before. specialize (Hle model scenario). lia. }
  split.
  - apply benchmark_results_forall. intros model scenario.
    pose proof (peak_memory_is_after_minus_before goos model scenario profile
                  (world model scenario)) as E.
    specialize (Hle model scenario).
    pose proof (recorded_risk_unknown goos model scenario profile (world model scenario)) as R.
    cbv zeta in R.
    set (r := runLowSpecTest goos model scenario profile (world model scenario)) in *.
    assert (Hp : PeakMemoryMB r <= 0) by lia.
    split; [exact Hp|]. split; [exact (R Hp)|].
    subst r. unfold runLowSpecTest in *. destruct (outcome _); cbn in *; [reflexivity|].
    apply Z.ltb_ge in Hp. rewrite Hp. reflexivity.
  - unfold calculateCostEfficiencyScore. rewrite (addEfficiency_skips _ _ Hpeak). reflexivity.
Qed.

Lemma no_memory_rise_no_efficiency_witness :
  (String.eqb "darwin" "linux" = false
   \/ forall model scenario,
        getCurrentMemoryUsage "darwin" (meminfoAfter (tieWorld model scenario))
        <= getCurrentMemoryUsage "darwin" (meminfoBefore (tieWorld model scenario)))
  /\ calculateCostEfficiencyScore
       (runLowSpecBenchmarks "darwin" tieWorld ["llama2:7b"; "mistral:latest"]
          getLowSpecTestScenarios workstation) = 0.0%Q.
Proof.
  assert (H : String.eqb "darwin" "linux" = false
              \/ forall model scenario,
                   getCurrentMemoryUsage "darwin" (meminfoAfter (tieWorld model scenario))
                   <= getCurrentMemoryUsage "darwin" (meminfoBefore (tieWorld model scenario)))
    by (left; reflexivity).
  split; [exact H|].
  apply (no_memory_rise_no_efficiency "darwin" tieWorld ["llama2:7b"; "mistral:latest"]
           getLowSpecTestScenarios workstation H).
Defined.

End MemoryDependent.

Section MemoryReadings.
Import LowSpec Samples.

Lemma MemTotal_not_MemAvailable (line : string) :
  HasPrefix line "MemTotal:" = true -> HasPrefix line "MemAvailable:" = false.
Proof.
  destruct line as [|c0 [|c1 [|c2 [|c3 line]]]]; cbn [HasPrefix];
    rewrite ?andb_false_r; try discriminate.
  intros H. repeat (apply andb_true_iff in H as [? H]).
  destruct (Ascii.eqb_spec c3 "T") as [->|]; [|discriminate].
  rewrite !andb_false_r || (cbn; rewrite ?andb_false_r); reflexivity.
Qed.

Lemma scanMemAvailable_app (l1 l2 : list string) :
  scanMemAvailable (l1 ++ l2)
  = match scanMemAvailable l1 with
    | Some v => Some v
    | None => scanMemAvailable l2
    end.
Proof.
  induction l1 as [|line l1 IH]; [reflexivity|].
  cbn [app scanMemAvailable].
  destruct (HasPrefix line "MemAvailable:"); [|exact IH].
  destruct (Fields line) as [|f0 [|f1 rest]]; try exact IH.
  destruct (ParseInt f1); [reflexivity | exact IH].
Qed.

Lemma readMeminfoLine_available (mem : Z * Z) (line : string) :
  snd (readMeminfoLine mem line) = default (snd mem) (scanMemAvailable [line]).
Proof.
  unfold readMeminfoLine. cbn [scanMemAvailable].
  destruct (HasPrefix line "MemTotal:") eqn:T.
  - rewrite (MemTotal_not_MemAvailable line T).
    destruct (Fields line) as [|f0 [|f1 rest]]; try reflexivity.
    destruct (ParseInt f1); reflexivity.
  - destruct (HasPrefix line "MemAvailable:"); [|reflexivity].
    destruct (Fields line) as [|f0 [|f1 rest]]; try reflexivity.
    destruct (ParseInt f1); reflexivity.
Qed.

Lemma readMeminfo_available (lines : list string) (mem : Z * Z) :
  snd (fold_left readMeminfoLine lines mem)
  = default (snd mem) (scanMemAvailable (rev lines)).
Proof.
  revert mem. induction lines as [|line lines IH]; intros mem; [reflexivity|].
  cbn [fold_left rev]. rewrite IH, scanMemAvailable_app, readMeminfoLine_available.
  destruct (scanMemAvailable (rev lines)); reflexivity.
Qed.

(** X13. The two readers of [/proc/meminfo] agree on what they parse but
    not on which line they take: the profiler's available RAM comes from
    the last [MemAvailable] line with a parseable value, the executor's
    reading from the first one; both are 0 when there is none or the file
    cannot be read, so they coincide whenever the file has at most one
    such line. *)
Theorem meminfo_readers (data : string) :
  snd (getLinuxMemoryInfo (Some data))
    = default 0 (scanMemAvailable (rev (SplitLines data)))
  /\ getCurrentMemoryUsage "linux" (Some data)
    = default 0 (scanMemAvailable (SplitLines data))
  /\ getLinuxMemoryInfo None = (0, 0)
  /\ getCurrentMemoryUsage "linux" None = 0
  /\ (forall before line after,
        SplitLines data = before ++ line :: after ->
        scanMemAvailable before = None -> scanMemAvailable after = None ->
        snd (getLinuxMemoryInfo (Some data)) = getCurrentMemoryUsage "linux" (Some data)).
Proof.
  split; [apply readMeminfo_available|]. split; [reflexivity|].
  split; [reflexivity|]. split; [reflexivity|].
  intros before line after E Hb Ha.
  unfold getLinuxMemoryInfo. rewrite readMeminfo_available.
  unfold getCurrentMemoryUsage. cbn [String.eqb]. change (String.eqb "linux" "linux") with true.
  cbv iota. rewrite E, rev_app_distr. cbn [rev].
  rewrite !scanMemAvailable_app.
  assert (Hr : forall l, scanMemAvailable l = None -> scanMemAvailable (rev l) = None).
  { induction l as [|x l IHl]; [reflexivity|]. cbn [rev]. intros H.
    change (x :: l) with ([x] ++ l) in H. rewrite scanMemAvailable_app in H.
    rewrite scanMemAvailable_app.
    destruct (scanMemAvailable [x]) eqn:Ex; [discriminate|].
    rewrite (IHl H). reflexivity. }
  rewrite (Hr after Ha), Hb.
  change (line :: after) with ([line] ++ after). rewrite !scanMemAvailable_app.
  rewrite Ha, (Hr before Hb).
  destruct (scanMemAvailable [line]); reflexivity.
Qed.

Lemma meminfo_readers_witness :
  exists data before line after,
    meminfo "8192000" = Some data
    /\ SplitLines data = before ++ line :: after
    /\ scanMemAvailable before = None /\ scanMemAvailable after = None
    /\ snd (getLinuxMemoryInfo (Some data)) = getCurrentMemoryUsage "linux" (Some data)
    /\ getCurrentMemoryUsage "linux" (Some data) = 8000.
Proof.
  eexists _, [_; _], _, [_; _]. split; [reflexivity|].
  assert (E : SplitLines
                ("MemTotal:       16384000 kB" +:+ nl +:+
                 "MemFree:          204800 kB" +:+ nl +:+
                 "MemAvailable:   " +:+ "8192000" +:+ " kB" +:+ nl +:+
                 "Buffers:          102400 kB" +:+ nl)
              = ["MemTotal:       16384000 kB"; "MemFree:          204800 kB"]
                ++ "MemAvailable:   8192000 kB" :: ["Buffers:          102400 kB"; ""])
    by reflexivity.
  split; [exact E|]. split; [reflexivity|]. split; [reflexivity|].
  split; [|reflexivity].
  exact (proj2 (proj2 (proj2 (proj2 (meminfo_readers _)))) _ _ _ E eq_refl eq_refl).
Defined.

End MemoryReadings.

(** A statement about every byte is checked on the 256 bytes. *)
Ltac each_byte c := destruct c as [[] [] [] [] [] [] [] []]; reflexivity.

Section DeviceNames.
Import LowSpec Samples.

(** The byte-wise effect of [sanitizeDeviceName]. *)
Lemma mapBytes_mapBytes (f g : ascii -> ascii) (s : string) :
  mapBytes f (mapBytes g s) = mapBytes (fun c => f (g c)) s.
Proof. induction s as [|c s IH]; [reflexivity|]. cbn [mapBytes]. rewrite IH. reflexivity. Qed.

Lemma mapBytes_ext (f g : ascii -> ascii) (s : string) :
  (forall c, f c = g c) -> mapBytes f s = mapBytes g s.
Proof.
  intros H. induction s as [|c s IH]; [reflexivity|]. cbn [mapBytes]. rewrite H, IH. reflexivity.
Qed.






End DeviceNames.

(** * Further properties of the model comparison *)

Section Statistics.
Import ModelComparison Samples.

Lemma succeeded_length (results : list ModelResult) :
  (length (filter (fun r => Success r = true) results) <= length results)%nat.
Proof. apply length_filter. Qed.

Lemma ratio_bounds (n d : Z) : 0 <= n <= d -> 0 < d ->
  (0 <= inject_Z n / inject_Z d <= 1)%Q.
Proof.
  intros Hn Hd. rewrite (ratio_Qmake n d Hd). unfold Qle. cbn [Qnum Qden].
  rewrite Z2Pos.id by lia. lia.
Qed.


(** X15. The statistics of a model: the number of tests is the number of
    results, the success rate is the share of successful ones and lies
    between 0 and 1, and when no run succeeded (or there is no result)
    rate and both averages are 0. *)
Theorem calculateModelStats_invariants (results : list ModelResult) :
  let stats := calculateModelStats results in
  let succeeded := filter (fun r => Success r = true) results in
  TotalTests stats = Z.of_nat (length results)
  /\ (0 <= SuccessRate stats <= 1)%Q
  /\ (results <> [] ->
      (SuccessRate stats
       == inject_Z (Z.of_nat (length succeeded)) / inject_Z (Z.of_nat (length results)))%Q)
  /\ (succeeded = [] ->
      (SuccessRate stats == 0)%Q /\ AvgResponseTime stats = 0
      /\ AvgOutputLength stats = 0%Q).
Proof.
  cbv zeta. unfold calculateModelStats.
  destruct results as [|r results]; [repeat split; try reflexivity; discriminate|].
  set (l := r :: results). cbn [TotalTests SuccessRate AvgResponseTime AvgOutputLength].
  pose proof (succeeded_length l) as Hlen.
  assert (Hpos : 0 < Z.of_nat (length l)) by (subst l; cbn [length]; lia).
  split; [reflexivity|]. split; [apply ratio_bounds; lia|]. split; [reflexivity|].
  intros E. rewrite E. cbn [length Z.of_nat Z.ltb].
  repeat split.
Qed.

Lemma calculateModelStats_invariants_witness :
  [failedBlogRun] <> []
  /\ (SuccessRate (calculateModelStats [failedBlogRun]) == 0)%Q
  /\ TotalTests (calculateModelStats [failedBlogRun]) = 1.
Proof.
  split; [discriminate|].
  destruct (calculateModelStats_invariants [failedBlogRun]) as (Ht & _ & _ & Hnone).
  split; [apply Hnone; reflexivity | exact Ht].
Defined.




End Statistics.

Section BestModelGeneral.
Import ModelComparison Samples.








End BestModelGeneral.

Section Recommendations.
Import ModelComparison Samples.

Lemma visited_lookup {V : Type} (iter : gmap string V -> list (string * V))
    (m : gmap string V) (k : string) (v : V) :
  visitsAll iter -> In (k, v) (iter m) <-> m !! k = Some v.
Proof.
  intros H. rewrite <- list_elem_of_In, (H m), elem_of_map_to_list. reflexivity.
Qed.






End Recommendations.

(** ** Loops that keep the first strict minimum *)

Section FirstMinimum.
Context {A : Type} (name : A -> string) (qualifies : A -> bool) (time : A -> Z).

Lemma keepFastest_fold (l : list A) (b : string) (t : Z) :
  (fold_left (keepFastest name qualifies time) l (b, t) = (b, t)
   /\ List.Forall (fun e => qualifies e = true -> t <= time e) l)
  \/ exists e,
       In e l /\ fold_left (keepFastest name qualifies time) l (b, t) = (name e, time e)
       /\ qualifies e = true /\ time e < t
       /\ List.Forall (fun e' => qualifies e' = true -> time e <= time e') l.
Proof.
  revert b t. induction l as [|a l IH]; intros b t.
  - left. split; [reflexivity | constructor].
  - cbn [fold_left]. unfold keepFastest at 2 4. cbn [snd].
    destruct (qualifies a) eqn:Hq; cbn [andb].
    + destruct (Z.ltb_spec (time a) t) as [Hlt|Hge].
      * right.
        destruct (IH (name a) (time a)) as [[-> Hall] | (e & Hin & -> & He & Het & Hall)].
        -- exists a. repeat split; auto; [left; reflexivity|].
           constructor; [intros _; lia | exact Hall].
        -- exists e. repeat split; auto; [right; exact Hin | lia|].
           constructor; [intros _; lia | exact Hall].
      * destruct (IH b t) as [[-> Hall] | (e & Hin & -> & He & Het & Hall)].
        -- left. split; [reflexivity|]. constructor; [intros _; lia | exact Hall].
        -- right. exists e. repeat split; auto; [right; exact Hin|].
           constructor; [intros _; lia | exact Hall].
    + destruct (IH b t) as [[-> Hall] | (e & Hin & -> & He & Het & Hall)].
      * left. split; [reflexivity|]. constructor; [congruence | exact Hall].
      * right. exists e. repeat split; auto; [right; exact Hin|].
        constructor; [congruence | exact Hall].
Qed.

End FirstMinimum.

Section Fastest.
Import ModelComparison Samples.

Lemma considerSpeed_keepFastest :
  considerSpeed
  = keepFastest fst (fun entry : string * ModelStats => Qltb 0.5 (SuccessRate (snd entry)))
                (fun entry => AvgResponseTime (snd entry)).
Proof. reflexivity. Qed.

(** X19. The model reported as fastest succeeded in more than half of its
    tests, answered in under an hour on average, and no model with such a
    success rate has a lower average response time; when no model
    qualifies none is reported. *)
Theorem fastest_model_qualifies (order : gmap string ModelStats -> list (string * ModelStats))
    (stats : gmap string ModelStats) :
  visitsAll order ->
  (findFastestModelWith order stats = ""
   /\ forall k st, stats !! k = Some st -> (1 # 2 < SuccessRate st)%Q ->
                   Hour <= AvgResponseTime st)
  \/ exists st,
       stats !! findFastestModelWith order stats = Some st
       /\ (1 # 2 < SuccessRate st)%Q /\ AvgResponseTime st < Hour
       /\ forall k' st', stats !! k' = Some st' -> (1 # 2 < SuccessRate st')%Q ->
                         AvgResponseTime st <= AvgResponseTime st'.
Proof.
  intros Horder. unfold findFastestModelWith.
  assert (Hhalf : forall q, Qltb 0.5 q = true <-> (1 # 2 < q)%Q).
  { intros q. rewrite Qltb_true. split; intros H; lra. }
  rewrite considerSpeed_keepFastest.
  destruct (keepFastest_fold fst
              (fun entry : string * ModelStats => Qltb 0.5 (SuccessRate (snd entry)))
              (fun entry => AvgResponseTime (snd entry)) (order stats) "" Hour)
    as [[-> Hall] | ([k st] & Hin & -> & He & Het & Hall)]; cbn beta in *.
  - left. split; [reflexivity|]. intros k st Hk Hq.
    apply (visited_lookup order _ _ _ Horder) in Hk.
    rewrite List.Forall_forall in Hall. apply (Hall _ Hk). apply Hhalf, Hq.
  - right. exists st. cbn [fst snd] in *.
    split; [apply (visited_lookup order _ _ _ Horder), Hin|].
    split; [apply Hhalf, He|]. split; [exact Het|].
    intros k' st' Hk' Hq. apply (visited_lookup order _ _ _ Horder) in Hk'.
    rewrite List.Forall_forall in Hall. apply (Hall _ Hk'). apply Hhalf, Hq.
Qed.

Lemma fastest_model_qualifies_witness :
  let stats := ModelStatsByModel (generateSummary [failedBlogRun]) in
  visitsAll (fun m : gmap string ModelStats => map_to_list m)
  /\ ((findFastestModelWith (fun m => map_to_list m) stats = ""
       /\ forall k st, stats !! k = Some st -> (1 # 2 < SuccessRate st)%Q ->
                       Hour <= AvgResponseTime st)
      \/ exists st,
           stats !! findFastestModelWith (fun m => map_to_list m) stats = Some st
           /\ (1 # 2 < SuccessRate st)%Q /\ AvgResponseTime st < Hour
           /\ forall k' st', stats !! k' = Some st' -> (1 # 2 < SuccessRate st')%Q ->
                             AvgResponseTime st <= AvgResponseTime st').
Proof.
  intros stats.
  assert (H : visitsAll (fun m : gmap string ModelStats => map_to_list m))
    by (intros m; reflexivity).
  split; [exact H|].
  exact (fastest_model_qualifies (fun m => map_to_list m) stats H).
Defined.

End Fastest.

Section Availability.
Import ModelComparison Samples.

Lemma app_assoc_string (a b c : string) : (a +:+ b) +:+ c = a +:+ b +:+ c.
Proof.
  induction a as [|x a IH]; [reflexivity|].
  change ((String x a +:+ b) +:+ c) with (String x ((a +:+ b) +:+ c)).
  rewrite IH. reflexivity.
Qed.

Lemma Contains_trans (s t u : string) :
  Contains s t = true -> Contains t u = true -> Contains s u = true.
Proof.
  rewrite !Contains_spec. intros (p1 & q1 & ->) (p2 & q2 & ->).
  exists (p1 +:+ p2), (q2 +:+ q1). rewrite !app_assoc_string. reflexivity.
Qed.

Lemma checkModelAvailability_filter (listingFor : string -> option string)
    (models acc : list string) :
  fold_left (fun available model =>
               if isModelAvailable (listingFor model) model
               then available ++ [model] else available) models acc
  = acc ++ List.filter (fun model => isModelAvailable (listingFor model) model) models.
Proof.
  revert acc. induction models as [|m models IH]; intros acc; cbn [fold_left List.filter].
  - rewrite app_nil_r. reflexivity.
  - rewrite IH. destruct (isModelAvailable (listingFor m) m);
      [rewrite <- app_assoc|]; reflexivity.
Qed.

(** X20. The availability check keeps, in their order, the candidates
    that occur anywhere in the text printed by [ollama list]: a candidate
    is accepted as soon as it is part of an installed name (a name
    without its tag, say), and none is accepted when the command fails. *)
Theorem checkModelAvailability_substring (listingFor : string -> option string)
    (models : list string) :
  checkModelAvailability listingFor models
    = List.filter (fun model => isModelAvailable (listingFor model) model) models
  /\ (forall candidate output installed,
        In candidate models -> listingFor candidate = Some output ->
        Contains output installed = true -> Contains installed candidate = true ->
        In candidate (checkModelAvailability listingFor models))
  /\ ((forall model, listingFor model = None) ->
      checkModelAvailability listingFor models = []).
Proof.
  assert (E : checkModelAvailability listingFor models
              = List.filter (fun model => isModelAvailable (listingFor model) model) models).
  { unfold checkModelAvailability. rewrite checkModelAvailability_filter. reflexivity. }
  split; [exact E|]. split.
  - intros c out inst Hin Hl H1 H2. rewrite E. apply List.filter_In. split; [exact Hin|].
    rewrite Hl. exact (Contains_trans _ _ _ H1 H2).
  - intros Hnone. rewrite E. induction models as [|m models IH]; [reflexivity|].
    cbn [List.filter]. rewrite (Hnone m). apply IH.
    unfold checkModelAvailability. rewrite checkModelAvailability_filter. reflexivity.
Qed.

Lemma checkModelAvailability_substring_witness :
  In "llama2" ["llama2"; "codellama:7b"]
  /\ Contains "llama2:7b" "llama2" = true
  /\ In "llama2" (checkModelAvailability (fun _ => sampleListing) ["llama2"; "codellama:7b"]).
Proof.
  assert (Hin : In "llama2" ["llama2"; "codellama:7b"]) by (left; reflexivity).
  assert (Hc : Contains "llama2:7b" "llama2" = true) by reflexivity.
  split; [exact Hin|]. split; [exact Hc|].
  destruct sampleListing as [output|] eqn:E; [|discriminate].
  apply (proj1 (proj2 (checkModelAvailability_substring (fun _ => Some output)
                         ["llama2"; "codellama:7b"]))
           "llama2" output "llama2:7b" Hin eq_refl); [|exact Hc].
  injection E as <-. reflexivity.
Defined.

End Availability.

Section UseCases.
Import ModelComparison Samples.

Lemma ToLower_ToUpper (s : string) : ToLower (ToUpper s) = ToLower s.
Proof.
  unfold ToLower, ToUpper. rewrite mapBytes_mapBytes. apply mapBytes_ext.
  intros c. each_byte c.
Qed.

Lemma ToLower_ToLower (s : string) : ToLower (ToLower s) = ToLower s.
Proof.
  unfold ToLower. rewrite mapBytes_mapBytes. apply mapBytes_ext.
  intros c. each_byte c.
Qed.

(** X21. The use case inferred from a prompt is one of blog, social,
    devlog, capture and general, does not depend on the case of the
    ASCII letters of the prompt, and is "blog" whenever the prompt
    mentions a blog post, whatever else it mentions. *)
Theorem inferUseCase_case_insensitive (prompt : string) :
  In (inferUseCase prompt) ["blog"; "social"; "devlog"; "capture"; "general"]
  /\ inferUseCase (ToUpper prompt) = inferUseCase prompt
  /\ inferUseCase (ToLower prompt) = inferUseCase prompt
  /\ (forall before after,
        ToLower prompt = before +:+ "blog post" +:+ after -> inferUseCase prompt = "blog").
Proof.
  split; [|split; [|split]].
  - unfold inferUseCase. cbv zeta.
    repeat match goal with
           | |- context [if ?b then _ else _] => destruct b
           end; simpl; tauto.
  - unfold inferUseCase. rewrite ToLower_ToUpper. reflexivity.
  - unfold inferUseCase. rewrite ToLower_ToLower. reflexivity.
  - intros before after E. unfold inferUseCase. cbv zeta.
    assert (H : Contains (ToLower prompt) "blog post" = true)
      by (apply Contains_spec; eauto).
    rewrite H. reflexivity.
Qed.

Lemma inferUseCase_case_insensitive_witness :
  exists before after,
    ToLower (Prompt failedBlogRun) = before +:+ "blog post" +:+ after
    /\ inferUseCase (Prompt failedBlogRun) = "blog".
Proof.
  exists "transform these development activities into an engaging ",
         ": 'built microservice architecture'".
  assert (E : ToLower (Prompt failedBlogRun)
              = "transform these development activities into an engaging "
                +:+ "blog post" +:+ ": 'built microservice architecture'")
    by reflexivity.
  split; [exact E|].
  exact (proj2 (proj2 (proj2 (inferUseCase_case_insensitive (Prompt failedBlogRun)))) _ _ E).
Defined.

End UseCases.

Section Experiments.
Import ModelComparison Samples.

(** X22. The experiment produces one result per model, test case and
    run, failed ones included, each for one of the models given; with a
    run count of zero or less (as when the field is missing from a
    configuration file) it produces none and the summary is empty. *)
Theorem runExperiments_results (world : string -> TestCase -> nat -> Invocation)
    (config : ExperimentConfig) (models : list string)
    (iter : gmap string Perf -> list (string * Perf)) :
  length (runExperiments world config models)
    = (length models * (length (TestCases config) * Z.to_nat (Runs config)))%nat
  /\ Forall (fun r => In (Model r) models) (runExperiments world config models)
  /\ (Runs config <= 0 ->
      runExperiments world config models = []
      /\ BestModel (generateSummaryWith iter (runExperiments world config models)) = ∅
      /\ ModelStatsByModel (generateSummaryWith iter (runExperiments world config models)) = ∅).
Proof.
  assert (Hlen : length (runExperiments world config models)
                 = (length models * (length (TestCases config) * Z.to_nat (Runs config)))%nat).
  { unfold runExperiments. apply length_flat_map_rows. intros model.
    apply length_flat_map_rows. intros testCase.
    rewrite length_map, length_seq. reflexivity. }
  split; [exact Hlen|]. split.
  - apply List.Forall_forall. intros r Hr. unfold runExperiments in Hr.
    apply in_flat_map in Hr as (model & Hm & Hr).
    apply in_flat_map in Hr as (testCase & _ & Hr).
    apply List.in_map_iff in Hr as (run & <- & _).
    unfold testModel. destruct (outcome _); exact Hm.
  - intros Hruns.
    assert (E : runExperiments world config models = []).
    { apply length_zero_iff_nil. rewrite Hlen.
      replace (Z.to_nat (Runs config)) with 0%nat by lia. lia. }
    rewrite E. repeat split.
Qed.

End Experiments.

(** * Further properties of the uroboro tester *)

Section SortingRankings.
Import UroboroTester Samples.

Lemma swapIfGreater_cons (i j : nat) (a : ModelRanking) (l : list ModelRanking) :
  swapIfGreater (S i) (S j) (a :: l) = a :: swapIfGreater i j l.
Proof.
  unfold swapIfGreater. cbn [lookup list_lookup].
  destruct (l !! i) as [ri|]; [|reflexivity].
  destruct (l !! j) as [rj|]; [|reflexivity].
  destruct (Qltb (Score ri) (Score rj)); reflexivity.
Qed.

Lemma inner_loop_cons (i : nat) (js : list nat) (a : ModelRanking) (l : list ModelRanking) :
  fold_left (fun rankings j => swapIfGreater (S i) j rankings) (List.map S js) (a :: l)
  = a :: fold_left (fun rankings j => swapIfGreater i j rankings) js l.
Proof.
  revert l. induction js as [|j js IH]; intros l; [reflexivity|].
  cbn [List.map fold_left]. rewrite swapIfGreater_cons. apply IH.
Qed.

Lemma outer_loop_cons (n : nat) (idx : list nat) (a : ModelRanking) (l : list ModelRanking) :
  fold_left (fun rankings i =>
               fold_left (fun rankings j => swapIfGreater i j rankings)
                         (seq (S i) (S n - S i)) rankings)
            (List.map S idx) (a :: l)
  = a :: fold_left (fun rankings i =>
                      fold_left (fun rankings j => swapIfGreater i j rankings)
                                (seq (S i) (n - S i)) rankings)
                   idx l.
Proof.
  revert l. induction idx as [|i idx IH]; intros l; [reflexivity|].
  cbn [List.map fold_left].
  replace (seq (S (S i)) (S n - S (S i))) with (List.map S (seq (S i) (n - S i)))
    by (rewrite seq_shift; f_equal; lia).
  rewrite inner_loop_cons. apply IH.
Qed.

Lemma bubble_length (cur : ModelRanking) (rest : list ModelRanking) :
  length (snd (bubble cur rest)) = length rest.
Proof.
  revert cur. induction rest as [|next rest IH]; intros cur; [reflexivity|].
  cbn [bubble]. destruct (Qltb (Score cur) (Score next)).
  - specialize (IH next). destruct (bubble next rest). cbn [snd length] in *. lia.
  - specialize (IH cur). destruct (bubble cur rest). cbn [snd length] in *. lia.
Qed.

(** The pass of the inner loop for position 0, entry by entry. *)
Lemma first_pass (cur : ModelRanking) (done todo : list ModelRanking) :
  fold_left (fun rankings j => swapIfGreater 0 j rankings)
            (seq (S (length done)) (length todo)) (cur :: done ++ todo)
  = fst (bubble cur todo) :: done ++ snd (bubble cur todo).
Proof.
  revert cur done. induction todo as [|next todo IH]; intros cur done; [reflexivity|].
  cbn [length seq fold_left bubble].
  assert (Hj : (cur :: done ++ next :: todo) !! S (length done) = Some next).
  { change ((cur :: done ++ next :: todo) !! S (length done))
      with ((done ++ next :: todo) !! length done).
    rewrite lookup_app_r by lia. rewrite Nat.sub_diag. reflexivity. }
  unfold swapIfGreater at 2. rewrite Hj.
  change ((cur :: done ++ next :: todo) !! 0%nat) with (Some cur). cbv iota beta.
  change (<[0%nat := next]> (<[S (length done) := cur]> (cur :: done ++ next :: todo)))
    with (next :: <[length done := cur]> (done ++ next :: todo)).
  rewrite insert_app_r_alt by lia. rewrite Nat.sub_diag.
  change (<[0%nat := cur]> (next :: todo)) with (cur :: todo).
  destruct (Qltb (Score cur) (Score next)).
  - specialize (IH next (done ++ [cur])).
    rewrite length_app in IH. cbn [length] in IH.
    replace (length done + 1)%nat with (S (length done)) in IH by lia.
    rewrite <- !app_assoc in IH. cbn [app] in IH. rewrite IH.
    destruct (bubble next todo). reflexivity.
  - specialize (IH cur (done ++ [next])).
    rewrite length_app in IH. cbn [length] in IH.
    replace (length done + 1)%nat with (S (length done)) in IH by lia.
    rewrite <- !app_assoc in IH. cbn [app] in IH. rewrite IH.
    destruct (bubble cur todo). reflexivity.
Qed.

(** The two loops, read from the front of the slice: one pass brings the
    greatest entry to the front, the remaining iterations sort the rest. *)
Lemma sortRankings_cons (cur : ModelRanking) (rest : list ModelRanking) :
  sortRankings (cur :: rest)
  = fst (bubble cur rest) :: sortRankings (snd (bubble cur rest)).
Proof.
  unfold sortRankings at 1. cbn [length]. rewrite Nat.sub_1_r. cbn [Nat.pred].
  destruct rest as [|next rest]; [reflexivity|].
  set (todo := next :: rest).
  change (length todo) with (S (length rest)).
  rewrite <- cons_seq, <- seq_shift. cbn [fold_left].
  replace (S (S (length rest)) - 1)%nat with (length todo) by (subst todo; cbn [length]; lia).
  pose proof (first_pass cur [] todo) as P. cbn [length app] in P. rewrite P.
  rewrite (outer_loop_cons (S (length rest))).
  unfold sortRankings. rewrite bubble_length.
  change (length todo) with (S (length rest)).
  rewrite Nat.sub_1_r. reflexivity.
Qed.

Lemma bubble_perm (cur : ModelRanking) (rest : list ModelRanking) :
  Permutation (fst (bubble cur rest) :: snd (bubble cur rest)) (cur :: rest).
Proof.
  revert cur. induction rest as [|next rest IH]; intros cur; [reflexivity|].
  cbn [bubble]. destruct (Qltb (Score cur) (Score next)).
  - specialize (IH next). destruct (bubble next rest) as [top rest']. cbn [fst snd] in *.
    rewrite perm_swap, IH. reflexivity.
  - specialize (IH cur). destruct (bubble cur rest) as [top rest']. cbn [fst snd] in *.
    rewrite perm_swap, IH. apply perm_swap.
Qed.

Lemma bubble_top (cur : ModelRanking) (rest : list ModelRanking) :
  List.Forall (fun r => (Score r <= Score (fst (bubble cur rest)))%Q) (cur :: rest).
Proof.
  revert cur. induction rest as [|next rest IH]; intros cur.
  - constructor; [apply Qle_refl | constructor].
  - cbn [bubble]. destruct (Qltb (Score cur) (Score next)) eqn:E.
    + specialize (IH next). destruct (bubble next rest) as [top rest']. cbn [fst] in *.
      apply Qltb_true in E. inversion IH as [|? ? Hn Hrest]; subst.
      constructor; [lra|]. constructor; assumption.
    + specialize (IH cur). destruct (bubble cur rest) as [top rest']. cbn [fst] in *.
      apply Qltb_false in E. inversion IH as [|? ? Hc Hrest]; subst.
      constructor; [exact Hc|]. constructor; [lra | exact Hrest].
Qed.

Lemma sortRankings_sorts (n : nat) (rankings : list ModelRanking) :
  length rankings = n ->
  Permutation (sortRankings rankings) rankings
  /\ StronglySorted (fun a b => (Score b <= Score a)%Q) (sortRankings rankings).
Proof.
  revert rankings. induction n as [|n IH]; intros [|cur rest] Hlen; try discriminate.
  - split; [reflexivity | constructor].
  - rewrite sortRankings_cons.
    destruct (IH (snd (bubble cur rest))) as [Hperm Hsorted].
    { rewrite bubble_length. cbn [length] in Hlen. lia. }
    split.
    + rewrite Hperm. apply bubble_perm.
    + constructor; [exact Hsorted|].
      pose proof (bubble_top cur rest) as Htop.
      rewrite <- (bubble_perm cur rest) in Htop.
      inversion Htop as [|? ? _ Hrest]; subst.
      rewrite Hperm. exact Hrest.
Qed.

(** X23. The two nested loops at the end of [analyzeUseCaseResults] sort:
    the slice they leave holds the same entries as before, each as often,
    and no entry is followed by one with a greater score. *)
Theorem sortRankings_sorted_permutation (rankings : list ModelRanking) :
  Permutation (sortRankings rankings) rankings
  /\ StronglySorted (fun a b => (Score b <= Score a)%Q) (sortRankings rankings).
Proof. exact (sortRankings_sorts (length rankings) rankings eq_refl). Qed.

End SortingRankings.

Section Rankings.
Import UroboroTester Samples.

Lemma grouping_lookup {A : Type} (key : A -> string) (results : list A)
    (groups : gmap string (list A)) (k : string) :
  fold_left (fun groups r => <[key r := default [] (groups !! key r) ++ [r]]> groups)
            results groups !! k
  = match List.filter (fun r => String.eqb (key r) k) results with
    | [] => groups !! k
    | own => Some (default [] (groups !! k) ++ own)
    end.
Proof.
  revert groups. induction results as [|r results IH]; intros groups; [reflexivity|].
  cbn [fold_left List.filter]. rewrite IH.
  destruct (String.eqb (key r) k) eqn:E.
  - apply String.eqb_eq in E. subst k. rewrite lookup_insert_eq. simpl.
    destruct (List.filter _ results); [reflexivity|].
    rewrite <- app_assoc. reflexivity.
  - apply String.eqb_neq in E. rewrite lookup_insert_ne by exact E. reflexivity.
Qed.

Lemma grouped_by_model (results : list UroboroTestResult) (model : string) :
  fold_left groupByModel results ∅ !! model
  = match List.filter (fun r => String.eqb (Model r) model) results with
    | [] => None
    | own => Some own
    end.
Proof.
  pose proof (grouping_lookup Model results ∅ model) as G.
  rewrite lookup_empty in G. exact G.
Qed.

Lemma addRun_runs (l : list UroboroTestResult) (acc : Q * Z * Z) :
  snd (fst (fold_left addRun l acc))
  = snd (fst acc) + Z.of_nat (length (List.filter Success l)).
Proof.
  revert acc. induction l as [|r l IH]; intros [[q n] t].
  - cbn. lia.
  - cbn [fold_left List.filter]. rewrite IH. unfold addRun.
    destruct (Success r); cbn [fst snd length]; lia.
Qed.

Lemma rankModel_cases (model : string) (modelRes : list UroboroTestResult) :
  match rankModel model modelRes with
  | Some r => RankedModel r = model /\ exists res, In res modelRes /\ Success res = true
  | None => forall res, In res modelRes -> Success res = false
  end.
Proof.
  unfold rankModel. destruct modelRes as [|r0 rest]; [intros ? []|].
  set (l := r0 :: rest).
  pose proof (addRun_runs l (0.0%Q, 0, 0)) as Hn.
  destruct (fold_left addRun l (0.0%Q, 0, 0)) as [[q n] t]. cbn [fst snd] in Hn.
  destruct (List.filter Success l) as [|res ok] eqn:E.
  - cbn [length] in Hn. replace n with 0 by lia. cbn.
    intros res Hin. destruct (Success res) eqn:S; [|reflexivity].
    assert (Hf : In res (List.filter Success l)) by (apply List.filter_In; auto).
    rewrite E in Hf. destruct Hf.
  - cbn [length] in Hn. destruct (Z.ltb_spec 0 n); [|lia].
    split; [reflexivity|]. exists res.
    apply List.filter_In. rewrite E. left. reflexivity.
Qed.

Lemma ranked_entries (l : list (string * list UroboroTestResult)) (r : ModelRanking) :
  In r (flat_map (fun entry => option_list (rankModel (fst entry) (snd entry))) l)
  <-> exists k rs, In (k, rs) l /\ rankModel k rs = Some r.
Proof.
  rewrite in_flat_map. split.
  - intros ([k rs] & Hin & Hr). exists k, rs. split; [exact Hin|].
    cbn [fst snd] in Hr. destruct (rankModel k rs); [|destruct Hr].
    destruct Hr as [->|[]]. reflexivity.
  - intros (k & rs & Hin & Hr). exists (k, rs). split; [exact Hin|].
    cbn [fst snd]. rewrite Hr. left. reflexivity.
Qed.

Lemma ranked_names_sublist (l : list (string * list UroboroTestResult)) :
  sublist (RankedModel <$> flat_map (fun entry => option_list (rankModel (fst entry) (snd entry))) l)
          (l.*1).
Proof.
  induction l as [|[k rs] l IH]; [constructor|].
  cbn [flat_map fst snd]. pose proof (rankModel_cases k rs) as Hr.
  destruct (rankModel k rs) as [r|].
  - destruct Hr as [<- _]. cbn. apply sublist_skip, IH.
  - cbn. apply sublist_cons, IH.
Qed.

Lemma ranked_iff_succeeded
    (iter : gmap string (list UroboroTestResult) -> list (string * list UroboroTestResult))
    (results : list UroboroTestResult) (model : string) :
  visitsAll iter ->
  (exists r, In r (analyzeUseCaseResultsWith iter results) /\ RankedModel r = model)
  <-> exists res, In res results /\ Model res = model /\ Success res = true.
Proof.
  intros Hiter. unfold analyzeUseCaseResultsWith.
  set (groups := fold_left groupByModel results ∅).
  set (unsorted := flat_map _ (iter groups)).
  pose proof (sortRankings_sorts (length unsorted) unsorted eq_refl) as [Hperm _].
  split.
  - intros (r & Hin & Hm).
    apply (Permutation_in _ Hperm) in Hin. apply ranked_entries in Hin.
    destruct Hin as (k & rs & Hin & Hr).
    apply (visited_lookup iter _ _ _ Hiter) in Hin.
    pose proof (rankModel_cases k rs) as Hc. rewrite Hr in Hc.
    destruct Hc as (Hk & res & Hres & Hok).
    subst groups. rewrite grouped_by_model in Hin.
    assert (Hown : In res (List.filter (fun r => String.eqb (Model r) k) results)).
    { destruct (List.filter _ results); [discriminate|]. injection Hin as <-. exact Hres. }
    apply List.filter_In in Hown as [Hin' Hmodel]. apply String.eqb_eq in Hmodel.
    exists res. repeat split; [exact Hin' | congruence | exact Hok].
  - intros (res & Hin & Hm & Hok).
    set (own := List.filter (fun r => String.eqb (Model r) model) results).
    assert (Hown : In res own)
      by (apply List.filter_In; split; [exact Hin | apply String.eqb_eq, Hm]).
    assert (Hg : groups !! model = Some own).
    { subst groups. rewrite grouped_by_model. fold own.
      destruct own; [destruct Hown | reflexivity]. }
    pose proof (rankModel_cases model own) as Hc.
    destruct (rankModel model own) as [r|] eqn:Hr.
    + exists r. split; [|apply Hc].
      apply (Permutation_in _ (Permutation_sym Hperm)). apply ranked_entries.
      exists model, own. split; [|exact Hr].
      apply (visited_lookup iter _ _ _ Hiter), Hg.
    + rewrite (Hc res Hown) in Hok. discriminate.
Qed.

(** X24. [analyzeUseCaseResults] ranks exactly the models with at least
    one successful result, each of them once: a model whose runs all
    failed gets no entry, however many runs it had. *)
Theorem ranked_models_have_succeeded
    (iter : gmap string (list UroboroTestResult) -> list (string * list UroboroTestResult))
    (results : list UroboroTestResult) :
  visitsAll iter ->
  let rankings := analyzeUseCaseResultsWith iter results in
  NoDup (RankedModel <$> rankings)
  /\ forall model,
       (exists r, In r rankings /\ RankedModel r = model)
       <-> exists res, In res results /\ Model res = model /\ Success res = true.
Proof.
  intros Hiter. cbv zeta. split.
  - unfold analyzeUseCaseResultsWith.
    set (groups := fold_left groupByModel results ∅).
    set (unsorted := flat_map _ (iter groups)).
    pose proof (sortRankings_sorts (length unsorted) unsorted eq_refl) as [Hperm _].
    rewrite Hperm. subst unsorted.
    eapply sublist_NoDup; [|apply ranked_names_sublist].
    rewrite (Hiter groups). apply NoDup_fst_map_to_list.
  - intros model. apply ranked_iff_succeeded, Hiter.
Qed.

Lemma ranked_models_have_succeeded_witness :
  visitsAll (fun m : gmap string (list UroboroTestResult) => map_to_list m)
  /\ exists r,
       In r (analyzeUseCaseResultsWith (fun m => map_to_list m) [answered "capture" goodOutput])
       /\ RankedModel r = "mistral:latest".
Proof.
  assert (H : visitsAll (fun m : gmap string (list UroboroTestResult) => map_to_list m))
    by (intros m; reflexivity).
  split; [exact H|].
  apply (ranked_models_have_succeeded _ [answered "capture" goodOutput] H).
  exists (answered "capture" goodOutput).
  split; [left; reflexivity | split; reflexivity].
Defined.









End Rankings.

Section SummaryOfResults.
Import UroboroTester Samples.

Lemma grouped_by_use_case (results : list UroboroTestResult) (useCase : string) :
  fold_left groupByUseCase results ∅ !! useCase
  = match List.filter (fun r => String.eqb (UseCase r) useCase) results with
    | [] => None
    | own => Some own
    end.
Proof.
  pose proof (grouping_lookup UseCase results ∅ useCase) as G.
  rewrite lookup_empty in G. exact G.
Qed.

(** X26. In the summary, the best model of a use case is the first entry
    of that use case's ranking: it has a successful run on the use case
    and no ranked model of the use case scores more.  A use case none of
    whose runs succeeded has no best model. *)
Theorem best_model_per_use_case
    (iter : gmap string (list UroboroTestResult) -> list (string * list UroboroTestResult))
    (order : gmap string (Z * Z) -> list (string * (Z * Z)))
    (results : list UroboroTestResult) (useCase : string) :
  visitsAll iter ->
  let summary := generateUroboroSummaryWith iter order results in
  match BestModelPerUseCase summary !! useCase with
  | None => forall res, In res results -> UseCase res = useCase -> Success res = false
  | Some best =>
      exists top rest,
        QualityRankings summary !! useCase = Some (top :: rest)
        /\ RankedModel top = best
        /\ List.Forall (fun r => (Score r <= Score top)%Q) rest
        /\ exists res, In res results /\ UseCase res = useCase /\ Model res = best
                       /\ Success res = true
  end.
Proof.
  intros Hiter. cbv zeta. unfold generateUroboroSummaryWith.
  cbn [BestModelPerUseCase QualityRankings].
  rewrite lookup_omap, lookup_fmap, grouped_by_use_case.
  set (own := List.filter (fun r => String.eqb (UseCase r) useCase) results).
  assert (Hown : forall res, In res own <-> In res results /\ UseCase res = useCase).
  { intros res. subst own. rewrite List.filter_In, String.eqb_eq. reflexivity. }
  destruct own as [|r0 own'] eqn:E.
  - cbn. intros res Hin Hu. destruct (proj2 (Hown res) (conj Hin Hu)).
  - rewrite <- E in *. clear E r0 own'.
    cbn [fmap option_fmap option_map mbind option_bind].
    pose proof (ranked_iff_succeeded iter own) as Hranked.
    pose proof (sortRankings_sorts _ _ eq_refl : _ /\ StronglySorted _ (analyzeUseCaseResultsWith iter own))
      as [_ Hsorted].
    destruct (analyzeUseCaseResultsWith iter own) as [|top rest].
    + cbn. intros res Hin Hu. destruct (Success res) eqn:S; [|reflexivity]. exfalso.
      destruct (proj2 (Hranked (Model res) Hiter)) as (r & [] & _).
      exists res. repeat split; [apply Hown; auto | exact S].
    + cbn. exists top, rest. split; [reflexivity|]. split; [reflexivity|].
      split; [inversion Hsorted; assumption|].
      destruct (proj1 (Hranked (RankedModel top) Hiter)) as (res & Hin & Hm & Hok).
      { exists top. split; [left; reflexivity | reflexivity]. }
      apply Hown in Hin as [Hin Hu]. exists res. auto.
Qed.

Lemma best_model_per_use_case_witness :
  visitsAll (fun m : gmap string (list UroboroTestResult) => map_to_list m)
  /\ BestModelPerUseCase
       (generateUroboroSummaryWith (fun m => map_to_list m) (fun m => map_to_list m) captureRuns)
     !! "capture" = Some "mistral:latest"
  /\ exists res, In res captureRuns /\ UseCase res = "capture"
                 /\ Model res = "mistral:latest" /\ Success res = true.
Proof.
  assert (H : visitsAll (fun m : gmap string (list UroboroTestResult) => map_to_list m))
    by (intros m; reflexivity).
  split; [exact H|].
  pose proof (best_model_per_use_case (fun m => map_to_list m) (fun m => map_to_list m)
                captureRuns "capture" H) as P.
  cbv zeta in P.
  assert (E : BestModelPerUseCase
                (generateUroboroSummaryWith (fun m => map_to_list m) (fun m => map_to_list m)
                   captureRuns) !! "capture" = Some "mistral:latest") by (vm_compute; reflexivity).
  rewrite E in P. split; [exact E|].
  destruct P as (top & rest & _ & _ & _ & Hres). exact Hres.
Defined.

End SummaryOfResults.

Section EnvironmentOfConfig.
Import UroboroTester Samples.

Lemma model_variable_distinct (s : string) : "UROBORO_MODEL" <> "UROBORO_MODEL_" +:+ s.
Proof. intros E. vm_compute in E. discriminate E. Qed.

Lemma use_case_variable_inj (s t : string) :
  "UROBORO_MODEL_" +:+ s = "UROBORO_MODEL_" +:+ t -> s = t.
Proof. intros E. vm_compute in E. injection E as E. exact E. Qed.

Lemma environment_of_use_cases (primary : string) (useCaseModels : gmap string string) :
  let env : gmap string string :=
    map_fold (fun useCase model env => <["UROBORO_MODEL_" +:+ ToUpper useCase := model]> env)
             (<["UROBORO_MODEL" := primary]> ∅) useCaseModels in
  env !! "UROBORO_MODEL" = Some primary
  /\ forall useCase model, useCaseModels !! useCase = Some model ->
       exists useCase' model',
         useCaseModels !! useCase' = Some model' /\ ToUpper useCase' = ToUpper useCase
         /\ env !! ("UROBORO_MODEL_" +:+ ToUpper useCase) = Some model'.
Proof.
  cbv zeta.
  apply (map_fold_weak_ind
           (fun (env : gmap string string) (m : gmap string string) =>
              env !! "UROBORO_MODEL" = Some primary
              /\ forall useCase model, m !! useCase = Some model ->
                   exists useCase' model',
                     m !! useCase' = Some model' /\ ToUpper useCase' = ToUpper useCase
                     /\ env !! ("UROBORO_MODEL_" +:+ ToUpper useCase) = Some model')).
  - split; [apply lookup_insert_eq|]. intros useCase model H.
    rewrite lookup_empty in H. discriminate.
  - intros i x m env Hi [Hprimary Hcases]. split.
    + rewrite lookup_insert_ne by (apply not_eq_sym, model_variable_distinct). exact Hprimary.
    + intros useCase model Hu.
      destruct (decide (ToUpper i = ToUpper useCase)) as [E|E].
      * exists i, x. rewrite lookup_insert_eq, E, lookup_insert_eq. auto.
      * assert (Hne : i <> useCase) by congruence.
        rewrite lookup_insert_ne in Hu by exact Hne.
        destruct (Hcases useCase model Hu) as (useCase' & model' & Hm & Hup & Henv).
        exists useCase', model'.
        assert (Hne' : i <> useCase') by congruence.
        rewrite lookup_insert_ne by exact Hne'.
        rewrite lookup_insert_ne by (intros K; apply use_case_variable_inj in K; exact (E K)).
        auto.
Qed.

(** X27. The recommended configuration: [UROBORO_MODEL] names the primary
    model, which is the best capture model or, without one,
    "mistral:latest"; every use case with a best model has its
    [UROBORO_MODEL_<USECASE>] variable, set to the best model of a use
    case with the same upper-case name; and only the use cases capture,
    social, devlog and blog get a timeout, of 15, 30, 45 and 60. *)
Theorem uroboro_config_environment (bestModelPerUseCase : gmap string string) :
  let config := generateConfigRecommendation bestModelPerUseCase in
  EnvironmentVars config !! "UROBORO_MODEL"
  = Some (default "mistral:latest" (bestModelPerUseCase !! "capture"))
  /\ (forall useCase model, bestModelPerUseCase !! useCase = Some model ->
        UseCaseModels config !! useCase = Some model
        /\ exists useCase' model',
             bestModelPerUseCase !! useCase' = Some model'
             /\ ToUpper useCase' = ToUpper useCase
             /\ EnvironmentVars config !! ("UROBORO_MODEL_" +:+ ToUpper useCase) = Some model')
  /\ (forall useCase seconds, TimeoutConfig config !! useCase = Some seconds ->
        is_Some (bestModelPerUseCase !! useCase)
        /\ In (useCase, seconds) [("capture", 15); ("social", 30); ("devlog", 45); ("blog", 60)]).
Proof.
  cbv zeta. unfold generateConfigRecommendation.
  cbn [EnvironmentVars UseCaseModels TimeoutConfig].
  pose proof (environment_of_use_cases
                (default "mistral:latest" (bestModelPerUseCase !! "capture"))
                bestModelPerUseCase) as [Hprimary Hcases].
  split; [exact Hprimary|]. split.
  - intros useCase model Hu. split; [exact Hu | exact (Hcases useCase model Hu)].
  - intros useCase seconds. rewrite map_lookup_imap.
    destruct (bestModelPerUseCase !! useCase) as [model|]; [|discriminate].
    cbn [mbind option_bind]. unfold timeoutFor. intros H. split; [eauto|].
    destruct (String.eqb_spec useCase "capture") as [->|_];
      [injection H as <-; left; reflexivity|].
    destruct (String.eqb_spec useCase "social") as [->|_];
      [injection H as <-; right; left; reflexivity|].
    destruct (String.eqb_spec useCase "devlog") as [->|_];
      [injection H as <-; right; right; left; reflexivity|].
    destruct (String.eqb_spec useCase "blog") as [->|_];
      [injection H as <-; right; right; right; left; reflexivity|].
    discriminate.
Qed.

Lemma uroboro_config_environment_witness :
  let best : gmap string string := {[ "social" := "llama2:7b" ]} in
  best !! "social" = Some "llama2:7b"
  /\ EnvironmentVars (generateConfigRecommendation best) !! "UROBORO_MODEL"
     = Some "mistral:latest"
  /\ UseCaseModels (generateConfigRecommendation best) !! "social" = Some "llama2:7b".
Proof.
  cbv zeta.
  destruct (uroboro_config_environment {[ "social" := "llama2:7b" ]}) as (Hp & Hc & _).
  split; [reflexivity|]. split; [exact Hp|].
  exact (proj1 (Hc "social" "llama2:7b" eq_refl)).
Defined.

End EnvironmentOfConfig.

Section PerformanceRecommendations.
Import UroboroTester Samples.

Lemma considerFastest_keepFastest :
  considerFastest = keepFastest Model Success ResponseTime.
Proof. reflexivity. Qed.

Lemma considerReliable_keepBest :
  considerReliable = keepBest fst (fun entry : string * (Z * Z) => reliability (snd entry)).
Proof. reflexivity. Qed.

Lemma countReliability_lookup (results : list UroboroTestResult)
    (modelReliability : gmap string (Z * Z)) (model : string) :
  let own := List.filter (fun r => String.eqb (Model r) model) results in
  let rel := default (0, 0) (modelReliability !! model) in
  fold_left countReliability results modelReliability !! model
  = match own with
    | [] => modelReliability !! model
    | _ => Some (fst rel + Z.of_nat (length (List.filter Success own)),
                 snd rel + Z.of_nat (length own))
    end.
Proof.
  cbv zeta. revert modelReliability.
  induction results as [|r results IH]; intros modelReliability; [reflexivity|].
  cbn [fold_left List.filter]. rewrite IH. unfold countReliability.
  destruct (String.eqb (Model r) model) eqn:E.
  - apply String.eqb_eq in E. subst model. rewrite lookup_insert_eq.
    simpl default. cbn [List.filter].
    set (rel := default (0, 0) (modelReliability !! Model r)). clearbody rel.
    destruct rel as [succeeded total]. cbn [fst snd].
    destruct (List.filter _ results) as [|r' own'].
    + destruct (Success r); cbn [List.filter length]; f_equal; f_equal; lia.
    + set (own := r' :: own'). cbn [fst snd].
      destruct (Success r); cbn [length]; f_equal; f_equal; lia.
  - apply String.eqb_neq in E. rewrite lookup_insert_ne by exact E. reflexivity.
Qed.

Lemma counted_reliability (results : list UroboroTestResult) (model : string) :
  let own := List.filter (fun r => String.eqb (Model r) model) results in
  fold_left countReliability results ∅ !! model
  = match own with
    | [] => None
    | _ => Some (Z.of_nat (length (List.filter Success own)), Z.of_nat (length own))
    end.
Proof.
  cbv zeta. rewrite countReliability_lookup. rewrite lookup_empty. reflexivity.
Qed.

(** X28. The "fastest" recommendation names the model of a successful
    run that took less than an hour and no longer than any other
    successful run; it is empty exactly when no successful run stayed
    under an hour. *)
Theorem fastest_recommendation (order : gmap string (Z * Z) -> list (string * (Z * Z)))
    (results : list UroboroTestResult) :
  exists fastest,
    generatePerformanceRecommendationsWith order results !! "fastest" = Some fastest
    /\ ((fastest = ""
         /\ forall res, In res results -> Success res = true ->
                        ModelComparison.Hour <= ResponseTime res)
        \/ exists res,
             In res results /\ Model res = fastest /\ Success res = true
             /\ ResponseTime res < ModelComparison.Hour
             /\ forall res', In res' results -> Success res' = true ->
                             ResponseTime res <= ResponseTime res').
Proof.
  unfold generatePerformanceRecommendationsWith. cbv zeta.
  eexists. split; [reflexivity|].
  rewrite considerFastest_keepFastest.
  destruct (keepFastest_fold Model Success ResponseTime results "" ModelComparison.Hour)
    as [[-> Hall] | (res & Hin & -> & Hok & Ht & Hall)].
  - left. split; [reflexivity|]. rewrite List.Forall_forall in Hall. exact Hall.
  - right. exists res. rewrite List.Forall_forall in Hall. auto.
Qed.

Lemma fastest_recommendation_witness :
  generatePerformanceRecommendationsWith (fun m => map_to_list m) captureRuns !! "fastest"
  = Some "mistral:latest".
Proof.
  destruct (fastest_recommendation (fun m => map_to_list m) captureRuns) as (fastest & E & _).
  rewrite E. vm_compute in E. symmetry. exact E.
Defined.

(** X29. The "most_reliable" recommendation names a model whose share of
    successful runs is positive and at least that of every model; it is
    empty exactly when no run succeeded. *)
Theorem most_reliable_recommendation (order : gmap string (Z * Z) -> list (string * (Z * Z)))
    (results : list UroboroTestResult) :
  visitsAll order ->
  let own := fun model => List.filter (fun r => String.eqb (Model r) model) results in
  let rate := fun model =>
    (inject_Z (Z.of_nat (length (List.filter Success (own model))))
     / inject_Z (Z.of_nat (length (own model))))%Q in
  exists reliable,
    generatePerformanceRecommendationsWith order results !! "most_reliable" = Some reliable
    /\ ((reliable = "" /\ forall res, In res results -> Success res = false)
        \/ ((0 < rate reliable)%Q /\ forall model, (rate model <= rate reliable)%Q)).
Proof.
  intros Horder own rate.
  unfold generatePerformanceRecommendationsWith. cbv zeta.
  eexists. split; [reflexivity|].
  set (counts := fold_left countReliability results ∅).
  assert (Hcounts : forall model,
            counts !! model
            = match own model with
              | [] => None
              | _ => Some (Z.of_nat (length (List.filter Success (own model))),
                           Z.of_nat (length (own model)))
              end) by (intros model; apply counted_reliability).
  assert (Hrate : forall model rel, counts !! model = Some rel -> reliability rel = rate model).
  { intros model rel H. rewrite Hcounts in H. subst rate. cbv beta.
    destruct (own model); [discriminate|]. injection H as <-. reflexivity. }
  rewrite considerReliable_keepBest.
  destruct (keepBest_fold fst (fun entry : string * (Z * Z) => reliability (snd entry))
              (order counts) "" 0.0%Q)
    as [[Hall ->] | (pre & [k rel] & post & Hl & -> & Hs & Hpre & Hpost)].
  - left. split; [reflexivity|]. intros res Hin.
    destruct (Success res) eqn:Hok; [exfalso | reflexivity].
    assert (Hres : In res (own (Model res)))
      by (apply List.filter_In; split; [exact Hin | apply String.eqb_refl]).
    assert (Hres' : In res (List.filter Success (own (Model res))))
      by (apply List.filter_In; auto).
    specialize (Hcounts (Model res)).
    destruct (own (Model res)) as [|r0 rest] eqn:E; [destruct Hres|].
    apply (visited_lookup order _ _ _ Horder) in Hcounts.
    rewrite List.Forall_forall in Hall. specialize (Hall _ Hcounts).
    cbn [snd] in Hall. unfold reliability in Hall. cbn [fst snd] in Hall.
    destruct (List.filter Success (r0 :: rest)) as [|r1 ok]; [destruct Hres'|].
    revert Hall. cbn [length]. rewrite !Nat2Z.inj_succ.
    generalize (Nat2Z.is_nonneg (length ok)) (Nat2Z.is_nonneg (length rest)).
    generalize (Z.of_nat (length ok)) (Z.of_nat (length rest)). intros a b Ha Hb.
    rewrite (ratio_Qmake (Z.succ a) (Z.succ b)) by lia.
    unfold Qle. cbn [Qnum Qden]. lia.
  - right. cbn [fst snd] in *.
    assert (Hk : counts !! k = Some rel).
    { apply (visited_lookup order _ _ _ Horder). rewrite Hl.
      apply in_or_app. right. left. reflexivity. }
    rewrite (Hrate k rel Hk) in *.
    assert (Hpos : (0 < rate k)%Q) by (revert Hs; generalize (rate k); intros q Hq; lra).
    split; [exact Hpos|].
    intros model. destruct (counts !! model) as [rel'|] eqn:Hm.
    + rewrite <- (Hrate model rel' Hm).
      apply (visited_lookup order _ _ _ Horder) in Hm. rewrite Hl in Hm.
      apply in_app_or in Hm. rewrite List.Forall_forall in Hpre, Hpost.
      destruct Hm as [Hm|[Hm|Hm]].
      * apply Qlt_le_weak. exact (Hpre _ Hm).
      * injection Hm as _ <-. rewrite (Hrate k rel Hk). apply Qle_refl.
      * exact (Hpost _ Hm).
    + rewrite Hcounts in Hm. subst rate. cbv beta.
      destruct (own model); [|discriminate].
      apply Qlt_le_weak. exact Hpos.
Qed.

Lemma most_reliable_recommendation_witness :
  visitsAll (fun m : gmap string (Z * Z) => map_to_list m)
  /\ generatePerformanceRecommendationsWith (fun m => map_to_list m) captureRuns
     !! "most_reliable" = Some "mistral:latest".
Proof.
  assert (H : visitsAll (fun m : gmap string (Z * Z) => map_to_list m))
    by (intros m; reflexivity).
  split; [exact H|].
  destruct (most_reliable_recommendation (fun m => map_to_list m) captureRuns H)
    as (reliable & E & _).
  rewrite E. vm_compute in E. symmetry. exact E.
Defined.

End PerformanceRecommendations.

Section FailedRuns.
Import UroboroTester Samples.

(** X30. A failed run is stored with an empty output and quality 0, but
    the two checks still run on the empty output: it is flagged as
    technically accurate, and as format compliant unless the use case is
    devlog, blog or capture. *)
Theorem failed_run_assessment (model : string) (testCase : UroboroTestCase)
    (call : ModelComparison.Invocation) (err : string) :
  ModelComparison.outcome call = LowSpec.Failed err ->
  let result := assessResult (testModelWithUroboroCase model testCase call) testCase in
  Success result = false /\ Output result = "" /\ Error result = err
  /\ QualityScore result = 0
  /\ TechnicalAccuracy result = true
  /\ (FormatCompliance result = false
      <-> In (TestCaseUseCase testCase) ["devlog"; "blog"; "capture"]).
Proof.
  intros Hcall. cbv zeta. unfold testModelWithUroboroCase. rewrite Hcall.
  unfold assessResult.
  cbn [Success Output Error QualityScore TechnicalAccuracy FormatCompliance].
  repeat (split; [reflexivity|]).
  unfold checkFormatCompliance. cbn [In].
  destruct (String.eqb_spec (TestCaseUseCase testCase) "devlog") as [->|Hd];
    [split; [tauto | reflexivity]|].
  destruct (String.eqb_spec (TestCaseUseCase testCase) "blog") as [->|Hb];
    [split; [tauto | reflexivity]|].
  cbn [orb].
  destruct (String.eqb_spec (TestCaseUseCase testCase) "social") as [E|Hs].
  - split; [discriminate|]. rewrite E. intros [H|[H|[H|[]]]]; discriminate.
  - destruct (String.eqb_spec (TestCaseUseCase testCase) "capture") as [->|Hc].
    + split; [tauto | reflexivity].
    + split; [discriminate|]. intros [H|[H|[H|[]]]]; congruence.
Qed.

Lemma failed_run_assessment_witness :
  ModelComparison.outcome killedCall = LowSpec.Failed "signal: killed"
  /\ TechnicalAccuracy (assessResult (testModelWithUroboroCase "llama2:7b" (caseFor "social")
                                        killedCall) (caseFor "social")) = true.
Proof.
  split; [reflexivity|].
  apply (failed_run_assessment "llama2:7b" (caseFor "social") killedCall "signal: killed").
  reflexivity.
Defined.

End FailedRuns.
